(** * Vestel / Procaster media player entity

    A shallow embedding of [custom_components/vestel/media_player.py]:
    the entity state derivation of [async_update] and the command
    translation of the [async_*] handlers of [VestelDevice].

    The entity methods are written in a small monad threading the entity
    fields, the log of effects performed on the device handle and the host,
    and the Python exception that may abort a handler. *)

From stdpp Require Import gmap strings list.
From Stdlib Require Import ZArith Lia String.

Local Open Scope string_scope.
Local Open Scope Z_scope.

(** ** Python values and exceptions *)

Module Py.

(** The exceptions a handler of this module can end with.  [ClientError]
    stands for whatever communication error a device call raises. *)
Inductive exn : Type :=
| NameError (name : string)
| ValueError
| IndexError
| ZeroDivisionError
| OverflowError
| ClientError.

Inductive result (A : Type) : Type :=
| Ok (a : A)
| Raise (e : exn).
Arguments Ok {A} a.
Arguments Raise {A} e.

(** A finite binary64 value [mant * 2 ^ expo]. *)
Record float : Type := F { mant : Z; expo : Z }.

(** Least exponent of a binary64 mantissa bit. *)
Definition emin : Z := -1074.

(** Nearest integer to [num / den], ties to even ([0 <= num], [0 < den]). *)
Definition round_half_even (num den : Z) : Z :=
  let q := num / den in
  match 2 * (num mod den) ?= den with
  | Lt => q
  | Eq => if Z.even q then q else q + 1
  | Gt => q + 1
  end.

(** [n / (d * 2 ^ e)] as a fraction of integers. *)
Definition scaled (n d e : Z) : Z * Z :=
  if e <? 0 then (n * 2 ^ (- e), d) else (n, d * 2 ^ e).

(** Exponent of the binary64 nearest to [n / d], for [0 < n], [0 < d]:
    the one that leaves a 53-bit mantissa, no smaller than [emin]. *)
Definition exponent (n d : Z) : Z :=
  let e0 := Z.max (Z.log2 n - Z.log2 d - 53) emin in
  let '(num, den) := scaled n d e0 in
  if num / den <? 2 ^ 53 then e0 else e0 + 1.

(** The binary64 nearest to [n / d], for [0 < n], [0 < d]. *)
Definition nearest (n d : Z) : float :=
  let e := exponent n d in
  let '(num, den) := scaled n d e in
  F (round_half_even num den) e.

(** The largest binary64 is [(2 ^ 53 - 1) * 2 ^ 971]. *)
Definition overflows (x : float) : bool :=
  (971 <? expo x) || ((expo x =? 971) && (2 ^ 53 <=? mant x)).

(** [a / b] on Python integers: the correctly rounded binary64 quotient. *)
Definition truediv (a b : Z) : result float :=
  if b =? 0 then Raise ZeroDivisionError
  else if a =? 0 then Ok (F 0 0)
  else
    let x := nearest (Z.abs a) (Z.abs b) in
    if overflows x then Raise OverflowError
    else Ok (F (Z.sgn a * Z.sgn b * mant x) (expo x)).

(** [int(x)] on a float: truncation toward zero. *)
Definition int_of_float (x : float) : Z :=
  if 0 <=? expo x then mant x * 2 ^ expo x
  else Z.quot (mant x) (2 ^ (- expo x)).

(** [int(a / b)]. *)
Definition int_truediv (a b : Z) : result Z :=
  match truediv a b with
  | Ok x => Ok (int_of_float x)
  | Raise e => Raise e
  end.

(** [sub in s] on strings. *)
Fixpoint contains (sub s : string) : bool :=
  String.prefix sub s ||
  match s with
  | EmptyString => false
  | String _ s' => contains sub s'
  end.

(** [l.index(x)]: position of the first element equal to [x]. *)
Fixpoint index (x : string) (l : list string) : option nat :=
  match l with
  | [] => None
  | y :: l' => if String.eqb y x then Some 0%nat else S <$> index x l'
  end.

End Py.

(** ** The device handle

    The [pyvesteltv] handle is an external object.  The entity only sees
    which of its calls return normally and what it reports once refreshed. *)

Module Device.

(** The awaited methods of the handle that the entity invokes. *)
Inductive call : Type :=
| update
| sendkey (key : Z)
| turn_off
| turn_on
| volume_up
| volume_down
| set_volume (volume : Py.float)
| toggle_mute
| next_track
| previous_track
| stop_netflix
| stop_youtube
| start_netflix
| start_youtube.

End Device.

(** What a handler does to the outside, in order: calls on the device
    handle, [asyncio.sleep], and the scheduling of
    [async_update_ha_state] on the host. *)
Inductive effect : Type :=
| Call (c : Device.call)
| Sleep (seconds : Z)
| AddJob_update_ha_state.

Record Handle : Type := {
  (** does the call, made after the given effects, return normally? *)
  returns : list effect -> Device.call -> bool;
  (** [device.get_state()], [device.get_media_title()], [device.source]
      as reported once [device.update()] has returned *)
  get_state : bool;
  get_media_title : option string;
  device_source : option string
}.

(** A handle all of whose calls return normally. *)
Definition responsive (dev : Handle) : Prop :=
  forall (done : list effect) (c : Device.call), returns dev done c = true.

(** ** Module constants *)

(** The state constants of [homeassistant.const] that the module imports. *)
Definition STATE_IDLE : string := "idle".
Definition STATE_UNKNOWN : string := "unknown".
Definition STATE_OFF : string := "off".
Definition STATE_PAUSED : string := "paused".
Definition STATE_PLAYING : string := "playing".
Definition MEDIA_TYPE_CHANNEL : string := "channel".

Definition DEFAULT_SOURCES : list string := ["TV"; "Netflix"; "YouTube"].

(** The states an entity may declare: the spec's
    [unknown | idle | off | playing | paused]. *)
Definition declared_states : list string :=
  [STATE_UNKNOWN; STATE_IDLE; STATE_OFF; STATE_PLAYING; STATE_PAUSED].

(** The names that the module binds to strings: the imports from
    [homeassistant] and the assignments at the top of the file.  The other
    module-level names (modules, classes, feature flags, the logger, the
    schema) are bound to objects that no handler stores in the entity.
    A name that the module binds nowhere, and that is no builtin, raises
    [NameError] when a handler evaluates it. *)
Definition module_globals : gmap string string :=
  list_to_map [
    ("MEDIA_TYPE_CHANNEL", MEDIA_TYPE_CHANNEL);
    ("STATE_IDLE", STATE_IDLE);
    ("STATE_UNKNOWN", STATE_UNKNOWN);
    ("STATE_OFF", STATE_OFF);
    ("STATE_PAUSED", STATE_PAUSED);
    ("STATE_PLAYING", STATE_PLAYING);
    ("CONF_HOST", "host");
    ("CONF_NAME", "name");
    ("CONF_TIMEOUT", "timeout");
    ("EVENT_HOMEASSISTANT_STOP", "homeassistant_stop");
    ("DOMAIN", "vestel");
    ("DEFAULT_NAME", "Vestel");
    ("CONF_TCP_PORT", "tcp_port");
    ("CONF_WS_PORT", "ws_port");
    ("CONF_SOURCES", "sources");
    ("CONF_SUPPORT_POWER", "supports_power");
    ("SERVICE_SEND_KEY", "send_key")
  ].

(** ** The entity *)

(** The fields of [VestelDevice] that its handlers read or write. *)
Record VestelDevice : Type := {
  _name : string;
  _sources_list : list string;
  _current_source : string;
  _state : string
}.

Definition with_state (v : string) (ent : VestelDevice) : VestelDevice :=
  {| _name := _name ent;
     _sources_list := _sources_list ent;
     _current_source := _current_source ent;
     _state := v |}.

Definition with_current_source (v : string) (ent : VestelDevice)
  : VestelDevice :=
  {| _name := _name ent;
     _sources_list := _sources_list ent;
     _current_source := v;
     _state := _state ent |}.

(** [__init__]: the first configured source is current, the state unknown.
    Indexing an empty source list raises. *)
Definition init (name : string) (sources_list : list string)
  : Py.result VestelDevice :=
  match sources_list with
  | [] => Py.Raise Py.IndexError
  | first :: _ =>
      Py.Ok {| _name := name;
               _sources_list := sources_list;
               _current_source := first;
               _state := STATE_UNKNOWN |}
  end.

(** *** The handler monad *)

Record World : Type := {
  self : VestelDevice;
  log : list effect
}.

Definition M (A : Type) : Type := Handle -> World -> Py.result A * World.

#[export] Instance M_ret : MRet M :=
  fun A a _ w => (Py.Ok a, w).

#[export] Instance M_bind : MBind M :=
  fun A B k m dev w =>
    match m dev w with
    | (Py.Ok a, w') => k a dev w'
    | (Py.Raise e, w') => (Py.Raise e, w')
    end.

Definition raise {A : Type} (e : Py.exn) : M A :=
  fun _ w => (Py.Raise e, w).

Definition lift {A : Type} (r : Py.result A) : M A :=
  fun _ w => (r, w).

Definition emit (ev : effect) : M unit :=
  fun _ w => (Py.Ok tt, {| self := self w; log := log w ++ [ev] |}).

(** [await self.device.<call>]: logged when it returns, raising otherwise. *)
Definition device (c : Device.call) : M unit :=
  fun dev w =>
    if returns dev (log w) c then emit (Call c) dev w
    else (Py.Raise Py.ClientError, w).

Definition sleep (seconds : Z) : M unit := emit (Sleep seconds).

(** [self.hass.async_add_job(self.async_update_ha_state())] *)
Definition add_job_update_ha_state : M unit := emit AddJob_update_ha_state.

Definition handle : M Handle := fun dev w => (Py.Ok dev, w).

(** Reading an attribute of [self]. *)
Definition attr {A : Type} (field : VestelDevice -> A) : M A :=
  fun _ w => (Py.Ok (field (self w)), w).

(** [self._state = v] *)
Definition set_state (v : string) : M unit :=
  fun _ w => (Py.Ok tt, {| self := with_state v (self w); log := log w |}).

(** [self._current_source = v] *)
Definition set_current_source (v : string) : M unit :=
  fun _ w =>
    (Py.Ok tt, {| self := with_current_source v (self w); log := log w |}).

(** Evaluating a module-level name. *)
Definition global (name : string) : M string :=
  match module_globals !! name with
  | Some v => mret v
  | None => raise (Py.NameError name)
  end.

(** [x is y] on state values: every value stored in [_state] is one of the
    module's state constants, on which identity and equality agree. *)
Definition is_ (x y : string) : bool := String.eqb x y.

(** Run a handler on an entity from an empty log. *)
Definition run {A : Type} (m : M A) (dev : Handle) (ent : VestelDevice)
  : Py.result A * VestelDevice * list effect :=
  let '(r, w) := m dev {| self := ent; log := [] |} in (r, self w, log w).

(** *** Properties *)

Definition state : M string := attr _state.
Definition source : M string := attr _current_source.
Definition source_list : M (list string) := attr _sources_list.
Definition media_title : M (option string) :=
  dev ← handle; mret (get_media_title dev).

(** Python truthiness of a title: [None] and the empty string are false. *)
Definition truthy (t : option string) : bool :=
  match t with
  | Some s => negb (String.eqb s "")
  | None => false
  end.

(** *** Handlers *)

Definition async_send_key (key : Z) : M unit :=
  device (Device.sendkey key).

Definition async_update : M unit :=
  device Device.update;;
  dev ← handle;
  (if get_state dev
   then v ← global "STATE_PLAYING"; set_state v
   else v ← global "STATE_OFF"; set_state v);;
  t ← media_title;
  let media_title := if truthy t then default "" t else "" in
  let source := device_source dev in
  sources ← source_list;
  if Py.contains "TV" media_title then
    set_current_source "TV"
  else if bool_decide (media_title ∈ sources) then
    set_current_source media_title
  else
    match source with
    | Some s =>
        if bool_decide (s ∈ sources) then set_current_source s else mret tt
    | None => mret tt
    end.

Definition async_turn_off : M unit :=
  s ← state;
  off ← global "STATE_OFF";
  if negb (is_ s off) then
    device Device.turn_off;;
    v ← global "STATE_OFF";
    set_state v;;
    add_job_update_ha_state
  else mret tt.

Definition async_turn_on : M unit :=
  s ← state;
  off ← global "STATE_OFF";
  if is_ s off then
    device Device.turn_on;;
    v ← global "STATE_PLAYING";
    set_state v;;
    add_job_update_ha_state
  else mret tt.

Definition async_volume_up : M unit := device Device.volume_up.

Definition async_volume_down : M unit := device Device.volume_down.

Definition async_set_volume_level (volume : Py.float) : M unit :=
  device (Device.set_volume volume).

Definition async_mute_volume (mute : bool) : M unit :=
  device Device.toggle_mute.

Definition async_media_play : M unit :=
  device (Device.sendkey 1025);;
  v ← global "STATE_PLAYING";
  set_state v;;
  add_job_update_ha_state.

Definition async_media_pause : M unit :=
  device (Device.sendkey 1049);;
  v ← global "STATE_PAUSED";
  set_state v;;
  add_job_update_ha_state.

Definition async_media_stop : M unit :=
  device (Device.sendkey 1024);;
  v ← global "STATE_STOP";
  set_state v;;
  add_job_update_ha_state.

Definition async_media_next_track : M unit := device Device.next_track.

Definition async_media_previous_track : M unit := device Device.previous_track.

(** The three key expressions of [async_play_media]. *)
Definition hundreds_key (channel : Z) : Py.result Z :=
  match Py.int_truediv channel 100 with
  | Py.Ok q => Py.Ok (1000 + q)
  | Py.Raise e => Py.Raise e
  end.

Definition tens_key (channel : Z) : Py.result Z :=
  match Py.int_truediv channel 10 with
  | Py.Ok q => Py.Ok (1000 + q)
  | Py.Raise e => Py.Raise e
  end.

Definition units_key (channel : Z) : Py.result Z :=
  match Py.int_truediv channel 10 with
  | Py.Ok q => Py.Ok (1000 - q * 10 + channel)
  | Py.Raise e => Py.Raise e
  end.

(** [media_id] is the integer that [int(media_id)] yields. *)
Definition async_play_media (media_type : string) (media_id : Z) : M unit :=
  channel_type ← global "MEDIA_TYPE_CHANNEL";
  if String.eqb media_type channel_type then
    let channel := media_id in
    (if 99 <? channel
     then k ← lift (hundreds_key channel); device (Device.sendkey k)
     else mret tt);;
    (if 9 <? channel
     then k ← lift (tens_key channel); device (Device.sendkey k)
     else mret tt);;
    k ← lift (units_key channel);
    device (Device.sendkey k);;
    device (Device.sendkey 1053)
  else mret tt.

Definition async_select_source (source' : string) : M unit :=
  current ← source;
  (if String.eqb current "Netflix" then
     device Device.stop_netflix;;
     sleep 3
   else if String.eqb current "YouTube" then
     device Device.stop_youtube;;
     sleep 3
   else mret tt);;
  (if String.eqb source' "YouTube" then
     device Device.start_youtube
   else if String.eqb source' "Netflix" then
     device Device.start_netflix
   else
     device (Device.sendkey 1056);;
     sources ← source_list;
     match Py.index source' sources with
     | Some i => device (Device.sendkey (1001 + Z.of_nat i))
     | None => raise Py.ValueError
     end);;
  set_current_source source'.

(** ** Reading a log *)

Definition is_call (ev : effect) : option Device.call :=
  match ev with
  | Call c => Some c
  | _ => None
  end.

(** The device calls of a log, in order. *)
Definition calls (l : list effect) : list Device.call :=
  omap is_call l.

(** The key codes sent in a log, in order. *)
Definition keys (l : list effect) : list Z :=
  omap (fun ev => match ev with Call (Device.sendkey k) => Some k | _ => None end) l.

(** The digit that a key code stands for: digit [d] is key [1000 + d]. *)
Definition digit_of_key (k : Z) : option Z :=
  if (1000 <=? k) && (k <=? 1009) then Some (k - 1000) else None.

(** The number spelled by a sequence of digit keys, most significant first. *)
Fixpoint number_of_keys (acc : Z) (ks : list Z) : option Z :=
  match ks with
  | [] => Some acc
  | k :: ks' =>
      match digit_of_key k with
      | Some d => number_of_keys (10 * acc + d) ks'
      | None => None
      end
  end.

(** The base-10 digits of a channel number as the spec sends them: three
    from 100 on, two from 10 on, one below. *)
Definition digits (n : Z) : list Z :=
  if 99 <? n then [n / 100 mod 10; n / 10 mod 10; n mod 10]
  else if 9 <? n then [n / 10 mod 10; n mod 10]
  else [n mod 10].

(** A television behind the handle: what a call does to it and the mute
    flag it shows. *)
Class Television (Tv : Type) : Type := {
  perform : Device.call -> Tv -> Tv;
  muted : Tv -> bool
}.

(** The television after the device calls of a log. *)
Definition after {Tv : Type} `{Television Tv} (l : list effect) (tv : Tv) : Tv :=
  fold_left (fun tv c => perform c tv) (calls l) tv.

(** The toggle-mute call flips the mute flag. *)
Definition toggle_flips (Tv : Type) `{Television Tv} : Prop :=
  forall tv : Tv, muted (perform Device.toggle_mute tv) = negb (muted tv).

(** A television that is nothing but its mute flag. *)
#[export] Instance mute_flag_tv : Television bool := {
  perform c flag := match c with Device.toggle_mute => negb flag | _ => flag end;
  muted flag := flag
}.

(** A handle whose calls all return. *)
Definition tv_handle (playing : bool) (title source : option string) : Handle :=
  {| returns := fun _ _ => true;
     get_state := playing;
     get_media_title := title;
     device_source := source |}.

(** A handle whose connection is down. *)
Definition dead_handle : Handle :=
  {| returns := fun _ _ => false;
     get_state := false;
     get_media_title := None;
     device_source := None |}.

Definition entity (sources : list string) (current st : string) : VestelDevice :=
  {| _name := "Vestel";
     _sources_list := sources;
     _current_source := current;
     _state := st |}.


(** ** Requests of the host *)

(** The handlers that the host invokes on the entity, with their
    arguments. *)
Inductive request : Type :=
| Poll
| SendKey (key : Z)
| TurnOff
| TurnOn
| VolumeUp
| VolumeDown
| SetVolumeLevel (volume : Py.float)
| MuteVolume (mute : bool)
| MediaPlay
| MediaPause
| MediaStop
| NextTrack
| PreviousTrack
| PlayMedia (media_type : string) (media_id : Z)
| SelectSource (source' : string).

Definition handler (r : request) : M unit :=
  match r with
  | Poll => async_update
  | SendKey key => async_send_key key
  | TurnOff => async_turn_off
  | TurnOn => async_turn_on
  | VolumeUp => async_volume_up
  | VolumeDown => async_volume_down
  | SetVolumeLevel volume => async_set_volume_level volume
  | MuteVolume mute => async_mute_volume mute
  | MediaPlay => async_media_play
  | MediaPause => async_media_pause
  | MediaStop => async_media_stop
  | NextTrack => async_media_next_track
  | PreviousTrack => async_media_previous_track
  | PlayMedia media_type media_id => async_play_media media_type media_id
  | SelectSource source' => async_select_source source'
  end.

(** The entity after the host made the requests in turn, each against the
    handle as it behaved at that time.  An exception ends the handler that
    raised it; the entity lives on with the fields it had then. *)
Fixpoint session (reqs : list (Handle * request)) (ent : VestelDevice)
  : VestelDevice :=
  match reqs with
  | [] => ent
  | (dev, r) :: reqs' => session reqs' (run (handler r) dev ent).1.2
  end.

(** The handlers that only forward to the device. *)
Definition passthrough (r : request) : bool :=
  match r with
  | SendKey _ | VolumeUp | VolumeDown | MuteVolume _
  | NextTrack | PreviousTrack | PlayMedia _ _ => true
  | _ => false
  end.

(** What select-source does first, by the source that is current: the
    stop call of the application left and the sleep, or nothing. *)
Definition leaving (current : string) : list effect :=
  if String.eqb current "Netflix" then [Call Device.stop_netflix; Sleep 3]
  else if String.eqb current "YouTube" then [Call Device.stop_youtube; Sleep 3]
  else [].

(** A handle none of whose calls returns. *)
Definition unreachable (dev : Handle) : Prop :=
  forall (done : list effect) (c : Device.call), returns dev done c = false.

(** ** Supported features *)

(** The feature flags of [homeassistant.components.media_player.const]
    that the module imports; their values belong to the host. *)
Class Features : Type := {
  SUPPORT_PAUSE : Z;
  SUPPORT_VOLUME_MUTE : Z;
  SUPPORT_STOP : Z;
  SUPPORT_PLAY : Z;
  SUPPORT_VOLUME_STEP : Z;
  SUPPORT_VOLUME_SET : Z;
  SUPPORT_NEXT_TRACK : Z;
  SUPPORT_PREVIOUS_TRACK : Z;
  SUPPORT_PLAY_MEDIA : Z;
  SUPPORT_SELECT_SOURCE : Z;
  SUPPORT_TURN_ON : Z;
  SUPPORT_TURN_OFF : Z
}.

Definition SUPPORT_PROCASTER `{Features} : Z :=
  Z.lor (Z.lor (Z.lor (Z.lor (Z.lor (Z.lor (Z.lor (Z.lor (Z.lor
    SUPPORT_PAUSE SUPPORT_VOLUME_MUTE)
    SUPPORT_STOP) SUPPORT_PLAY) SUPPORT_VOLUME_STEP)
    SUPPORT_VOLUME_SET) SUPPORT_NEXT_TRACK) SUPPORT_PREVIOUS_TRACK)
    SUPPORT_PLAY_MEDIA) SUPPORT_SELECT_SOURCE.

(** [self._support] as [__init__] leaves it. *)
Definition init_support `{Features} (support_power : bool) : Z :=
  if support_power
  then Z.lor SUPPORT_PROCASTER (Z.lor SUPPORT_TURN_ON SUPPORT_TURN_OFF)
  else SUPPORT_PROCASTER.

(** The [supported_features] property; [discovered] is what
    [self.device.discovered()] answers. *)
Definition supported_features `{Features} (_support : Z) (discovered : bool)
  : Z :=
  if negb discovered
  then Z.land _support (Z.lnot SUPPORT_TURN_ON)
  else _support.

(** The flags as the host defines them. *)
Definition ha_features : Features := {|
  SUPPORT_PAUSE := 1;
  SUPPORT_VOLUME_MUTE := 8;
  SUPPORT_STOP := 4096;
  SUPPORT_PLAY := 16384;
  SUPPORT_VOLUME_STEP := 1024;
  SUPPORT_VOLUME_SET := 4;
  SUPPORT_NEXT_TRACK := 32;
  SUPPORT_PREVIOUS_TRACK := 16;
  SUPPORT_PLAY_MEDIA := 512;
  SUPPORT_SELECT_SOURCE := 2048;
  SUPPORT_TURN_ON := 128;
  SUPPORT_TURN_OFF := 256
|}.

(** ** Proof tools for running handlers *)

Ltac globals :=
  unfold global;
  change (module_globals !! "STATE_OFF") with (Some STATE_OFF);
  change (module_globals !! "STATE_PLAYING") with (Some STATE_PLAYING);
  change (module_globals !! "STATE_PAUSED") with (Some STATE_PAUSED);
  change (module_globals !! "MEDIA_TYPE_CHANNEL") with (Some MEDIA_TYPE_CHANNEL);
  change (module_globals !! "STATE_STOP") with (@None string).

Ltac unfold_handler :=
  unfold run; globals;
  repeat unfold mbind, M_bind, mret, M_ret, state, source, source_list,
    media_title, handle, attr, lift, raise, sleep, add_job_update_ha_state,
    set_state, set_current_source, emit, device, is_.

(** ** Float division truncated to an integer *)

Section Rounding.

Local Open Scope Z_scope.

Lemma round_half_even_bounds num den :
  0 < den ->
  num / den <= Py.round_half_even num den <= num / den + 1.
Proof.
  intros Hden. unfold Py.round_half_even.
  destruct (2 * (num mod den) ?= den); [destruct (Z.even _)| |]; lia.
Qed.

Lemma round_half_even_up num den :
  0 < den ->
  Py.round_half_even num den = num / den + 1 -> den <= 2 * (num mod den).
Proof.
  intros Hden. unfold Py.round_half_even.
  destruct (2 * (num mod den) ?= den) eqn:Hc; try lia.
  - apply Z.compare_eq in Hc. lia.
  - apply Z.compare_gt_iff in Hc. lia.
Qed.

(** Scaling the numerator by [s] before rounding and dividing by [s]
    afterwards loses nothing when the scale exceeds half the divisor. *)
Lemma round_scaled_div n d s :
  0 <= n -> 0 < d -> 0 < s -> d < 2 * s ->
  Py.round_half_even (n * s) d / s = n / d.
Proof.
  intros Hn Hd Hs Hds.
  pose proof (Z.div_mod n d ltac:(lia)) as Hnd.
  pose proof (Z.mod_pos_bound n d Hd) as Hr.
  set (k := n / d) in *. set (r := n mod d) in *.
  pose proof (Z.div_mod (n * s) d ltac:(lia)) as Hq.
  pose proof (Z.mod_pos_bound (n * s) d Hd) as Hrem.
  pose proof (round_half_even_bounds (n * s) d Hd) as Hb.
  pose proof (round_half_even_up (n * s) d Hd) as Hup.
  set (m := Py.round_half_even (n * s) d) in *.
  set (q := n * s / d) in *. set (rem := (n * s) mod d) in *.
  assert (Hq1 : k * s <= q) by nia.
  assert (Hq2 : q < (k + 1) * s) by nia.
  symmetry. apply (Z.div_unique_pos m s k (m - k * s)); [|lia].
  split; [lia|].
  destruct (Z.eq_dec m (q + 1)) as [Hm|Hm]; [|lia].
  specialize (Hup Hm).
  assert (q + 1 <> (k + 1) * s) by nia.
  lia.
Qed.

Lemma exponent_cases n d :
  let e0 := Z.max (Z.log2 n - Z.log2 d - 53) Py.emin in
  (Py.exponent n d = e0 /\ fst (Py.scaled n d e0) / snd (Py.scaled n d e0) < 2 ^ 53)
  \/ (Py.exponent n d = e0 + 1 /\ 2 ^ 53 <= fst (Py.scaled n d e0) / snd (Py.scaled n d e0)).
Proof.
  intros e0. unfold Py.exponent. fold e0.
  destruct (Py.scaled n d e0) as [num den]. simpl.
  destruct (num / den <? 2 ^ 53) eqn:Hlt.
  - left. apply Z.ltb_lt in Hlt. auto.
  - right. apply Z.ltb_ge in Hlt. auto.
Qed.

(** With a non-positive exponent whose scale exceeds half the divisor,
    [int(n / d)] is the floor quotient. *)
Lemma int_truediv_at n d :
  0 < n -> 0 < d ->
  Py.exponent n d <= 0 -> d < 2 * 2 ^ (- Py.exponent n d) ->
  Py.int_truediv n d = Py.Ok (n / d).
Proof.
  intros Hn Hd He Hs.
  unfold Py.int_truediv, Py.truediv.
  destruct (Z.eqb_spec d 0) as [|_]; [lia|].
  destruct (Z.eqb_spec n 0) as [|_]; [lia|].
  rewrite (Z.abs_eq n), (Z.abs_eq d) by lia.
  unfold Py.nearest. set (e := Py.exponent n d) in *.
  assert (Hpow : 0 < 2 ^ (- e)) by (apply Z.pow_pos_nonneg; lia).
  assert (Hround : Py.round_half_even (n * 2 ^ (- e)) d / 2 ^ (- e) = n / d)
    by (apply round_scaled_div; lia).
  pose proof (round_half_even_bounds (n * 2 ^ (- e)) d Hd) as Hb.
  assert (0 <= n * 2 ^ (- e) / d) by (apply Z.div_pos; nia).
  unfold Py.scaled. destruct (Z.ltb_spec e 0) as [Hneg|Hpos].
  - unfold Py.overflows. cbn [Py.expo Py.mant].
    destruct (Z.ltb_spec 971 e); [lia|].
    destruct (Z.eqb_spec e 971); [lia|]. cbn [orb andb].
    rewrite (Z.sgn_pos n), (Z.sgn_pos d) by lia.
    unfold Py.int_of_float. cbn [Py.expo Py.mant].
    destruct (Z.leb_spec 0 e); [lia|].
    rewrite Z.quot_div_nonneg by lia.
    f_equal. rewrite <- Hround. f_equal. lia.
  - assert (e = 0) by lia. subst e.
    replace (Py.exponent n d) with 0 in * by lia.
    change (2 ^ (- 0)) with 1 in *. change (2 ^ 0) with 1.
    rewrite !Z.mul_1_r in *. rewrite Z.div_1_r in Hround.
    unfold Py.overflows. cbn. rewrite Hround.
    rewrite (Z.sgn_pos n), (Z.sgn_pos d) by lia.
    f_equal. lia.
Qed.

(** Below [2 ^ 53] the quotient is exact after truncation, whatever the
    (word-sized) divisor. *)
Lemma int_truediv_exact n d :
  0 <= n < 2 ^ 53 -> 0 < d < 2 ^ 64 ->
  Py.int_truediv n d = Py.Ok (n / d).
Proof.
  intros Hn Hd.
  destruct (Z.eq_dec n 0) as [->|Hn0].
  { unfold Py.int_truediv, Py.truediv.
    destruct (Z.eqb_spec d 0); [lia|]. reflexivity. }
  assert (Hln : 0 <= Z.log2 n < 53).
  { split; [apply Z.log2_nonneg|]. apply Z.log2_lt_pow2; lia. }
  assert (Hld : 0 <= Z.log2 d < 64).
  { split; [apply Z.log2_nonneg|]. apply Z.log2_lt_pow2; lia. }
  pose proof (Z.log2_spec d ltac:(lia)) as Hspec.
  rewrite Z.pow_succ_r in Hspec by lia.
  assert (Hmono : Py.exponent n d <= 0 ->
                  - Py.exponent n d >= Z.log2 d ->
                  d < 2 * 2 ^ (- Py.exponent n d)).
  { intros _ Hge.
    assert (2 ^ Z.log2 d <= 2 ^ (- Py.exponent n d))
      by (apply Z.pow_le_mono_r; lia).
    lia. }
  pose proof (exponent_cases n d) as Hcases. cbv zeta in Hcases.
  unfold Py.emin in Hcases.
  rewrite Z.max_l in Hcases by lia.
  apply int_truediv_at; try lia;
    destruct Hcases as [[He _]|[He _]]; try apply Hmono; lia.
Qed.

(** Dividing by ten stays exact a little further, up to the first
    numerator whose quotient rounds up to the next integer. *)
Lemma int_truediv_10 n :
  0 <= n < 11258999068426249 ->
  Py.int_truediv n 10 = Py.Ok (n / 10).
Proof.
  intros Hn.
  destruct (Z.lt_ge_cases n (2 ^ 53)) as [Hsmall|Hbig].
  { apply int_truediv_exact; lia. }
  assert (Hlog : Z.log2 n = 53) by (apply Z.log2_unique; lia).
  pose proof (exponent_cases n 10) as Hcases. cbv zeta in Hcases.
  rewrite Hlog in Hcases.
  change (Z.max (53 - Z.log2 10 - 53) Py.emin) with (-3) in Hcases.
  change (Py.scaled n 10 (-3)) with (n * 8, 10) in Hcases.
  cbn [fst snd] in Hcases.
  destruct Hcases as [[He Hq]|[He Hq]].
  - apply int_truediv_at; try lia. rewrite He. reflexivity.
  - assert (Hlow : 10 * 2 ^ 50 <= n).
    { destruct (Z.lt_ge_cases n (10 * 2 ^ 50)) as [Hlt|]; [|assumption].
      assert (n * 8 / 10 < 2 ^ 53) by (apply Z.div_lt_upper_bound; lia).
      lia. }
    assert (Hcase : n = 11258999068426240 \/ n = 11258999068426241
                 \/ n = 11258999068426242 \/ n = 11258999068426243
                 \/ n = 11258999068426244 \/ n = 11258999068426245
                 \/ n = 11258999068426246 \/ n = 11258999068426247
                 \/ n = 11258999068426248) by lia.
    repeat (destruct Hcase as [->|Hcase]; [vm_compute; reflexivity|]).
    subst n. vm_compute. reflexivity.
Qed.

End Rounding.

(** ** Power guards *)

Lemma with_state_same ent : with_state (_state ent) ent = ent.
Proof. destruct ent; reflexivity. Qed.

Section TurnOnOff.

Variable dev : Handle.
Variable ent : VestelDevice.

Lemma turn_off_when_off :
  _state ent = STATE_OFF ->
  run async_turn_off dev ent = (Py.Ok tt, ent, []).
Proof.
  intros Hoff. unfold async_turn_off. unfold_handler.
  cbn. rewrite Hoff. reflexivity.
Qed.

Lemma turn_off_when_on :
  responsive dev -> _state ent <> STATE_OFF ->
  run async_turn_off dev ent =
    (Py.Ok tt, with_state STATE_OFF ent,
     [Call Device.turn_off; AddJob_update_ha_state]).
Proof.
  intros Hdev Hon. unfold async_turn_off. unfold_handler.
  cbn. destruct (String.eqb_spec (_state ent) STATE_OFF) as [|_]; [easy|].
  cbn. rewrite Hdev. reflexivity.
Qed.

Lemma turn_on_when_on :
  _state ent <> STATE_OFF ->
  run async_turn_on dev ent = (Py.Ok tt, ent, []).
Proof.
  intros Hon. unfold async_turn_on. unfold_handler.
  cbn. destruct (String.eqb_spec (_state ent) STATE_OFF) as [|_]; [easy|].
  reflexivity.
Qed.

Lemma turn_on_when_off :
  responsive dev -> _state ent = STATE_OFF ->
  run async_turn_on dev ent =
    (Py.Ok tt, with_state STATE_PLAYING ent,
     [Call Device.turn_on; AddJob_update_ha_state]).
Proof.
  intros Hdev Hoff. unfold async_turn_on. unfold_handler.
  cbn. rewrite Hoff. cbn. rewrite Hdev. reflexivity.
Qed.

(** Issuing a handler twice in a row. *)
Lemma turn_off_twice :
  responsive dev ->
  run (async_turn_off;; async_turn_off) dev ent = run async_turn_off dev ent.
Proof.
  intros Hdev. unfold async_turn_off. unfold_handler.
  cbn. destruct (String.eqb_spec (_state ent) STATE_OFF) as [Hoff|Hon].
  - cbn. rewrite Hoff. reflexivity.
  - cbn. rewrite Hdev. reflexivity.
Qed.

Lemma turn_on_twice :
  responsive dev ->
  run (async_turn_on;; async_turn_on) dev ent = run async_turn_on dev ent.
Proof.
  intros Hdev. unfold async_turn_on. unfold_handler.
  cbn. destruct (String.eqb_spec (_state ent) STATE_OFF) as [Hoff|Hon].
  - cbn. rewrite Hdev. reflexivity.
  - cbn. destruct (String.eqb_spec (_state ent) STATE_OFF) as [|_]; [easy|].
    reflexivity.
Qed.

End TurnOnOff.

(** ** Strings and source lists *)

Lemma prefix_spec (a b : string) :
  String.prefix a b = true <-> exists post, b = a +:+ post.
Proof.
  revert b. induction a as [|c a IH]; intros b; simpl.
  - destruct b; split; eauto.
  - destruct b as [|c' b].
    + split; [discriminate|]. intros [post Hpost]. discriminate.
    + simpl. destruct (Ascii.ascii_dec c c') as [->|Hne].
      * rewrite IH. split; intros [post Hpost]; exists post.
        -- now rewrite Hpost.
        -- now inversion Hpost.
      * split; [discriminate|]. intros [post Hpost].
        simpl in Hpost. inversion Hpost. congruence.
Qed.

(** [Py.contains] decides the substring relation. *)
Lemma contains_spec (sub s : string) :
  Py.contains sub s = true <-> exists pre post, s = pre +:+ sub +:+ post.
Proof.
  induction s as [|c s IH]; cbn [Py.contains].
  - rewrite orb_false_r, prefix_spec. split.
    + intros [post Hpost]. now exists EmptyString, post.
    + intros [pre [post Hs]]. destruct pre; [|discriminate].
      now exists post.
  - rewrite orb_true_iff, IH, prefix_spec. split.
    + intros [[post Hpost]|[pre [post Hs]]].
      * now exists EmptyString, post.
      * exists (String c pre), post. simpl. now rewrite Hs.
    + intros [pre [post Hs]]. destruct pre as [|c' pre].
      * left. now exists post.
      * right. simpl in Hs. inversion Hs. now exists pre, post.
Qed.

Lemma index_None (x : string) (l : list string) :
  Py.index x l = None <-> x ∉ l.
Proof.
  induction l as [|y l IH]; simpl.
  - split; [intros _; apply not_elem_of_nil|reflexivity].
  - rewrite not_elem_of_cons.
    destruct (String.eqb_spec y x) as [->|Hne].
    + split; [discriminate|]. intros [Hx _]. now destruct Hx.
    + rewrite fmap_None, IH. split; [auto|tauto].
Qed.

Lemma index_Some (x : string) (l : list string) (i : nat) :
  Py.index x l = Some i ->
  l !! i = Some x /\ forall j, (j < i)%nat -> l !! j <> Some x.
Proof.
  revert i. induction l as [|y l IH]; intros i; simpl; [discriminate|].
  destruct (String.eqb_spec y x) as [->|Hne].
  - intros [= <-]. split; [reflexivity|lia].
  - destruct (Py.index x l) as [k|]; [|discriminate].
    intros [= <-]. destruct (IH k eq_refl) as [Hk Hmin].
    split; [exact Hk|]. intros [|j] Hj; simpl.
    + congruence.
    + apply Hmin. lia.
Qed.

Lemma index_elem_of (x : string) (l : list string) :
  x ∈ l -> exists i, Py.index x l = Some i.
Proof.
  intros Hin. destruct (Py.index x l) as [i|] eqn:Hi; [eauto|].
  apply index_None in Hi. contradiction.
Qed.

(** ** Polling *)

Lemma title_truthy (t : option string) :
  (if truthy t then default "" t else "") = default "" t.
Proof.
  destruct t as [s|]; simpl; [|reflexivity].
  destruct (String.eqb_spec s ""); subst; reflexivity.
Qed.

(** The source that a poll derives, as a function of the title, the
    reported source and the previous source. *)
Lemma update_run (dev : Handle) (ent : VestelDevice) :
  returns dev [] Device.update = true ->
  exists ent',
    run async_update dev ent = (Py.Ok tt, ent', [Call Device.update])
    /\ _sources_list ent' = _sources_list ent
    /\ _state ent' = (if get_state dev then STATE_PLAYING else STATE_OFF)
    /\ _current_source ent' =
         let title := default "" (get_media_title dev) in
         if Py.contains "TV" title then "TV"
         else if bool_decide (title ∈ _sources_list ent) then title
         else match device_source dev with
              | Some s =>
                  if bool_decide (s ∈ _sources_list ent) then s
                  else _current_source ent
              | None => _current_source ent
              end.
Proof.
  intros Hdev. unfold async_update. unfold_handler.
  cbn. rewrite Hdev. cbn. rewrite title_truthy.
  set (title := default "" (get_media_title dev)).
  destruct (get_state dev); cbn;
    (destruct (Py.contains "TV" title); cbn; [eauto 6|]);
    (destruct (bool_decide (title ∈ _sources_list ent)); cbn; [eauto 6|]);
    (destruct (device_source dev) as [s|]; cbn; [|eauto 6]);
    (destruct (bool_decide (s ∈ _sources_list ent)); cbn; eauto 6).
Qed.

(** A poll whose refresh fails changes nothing. *)
Lemma update_unreachable (dev : Handle) (ent : VestelDevice) :
  returns dev [] Device.update = false ->
  run async_update dev ent = (Py.Raise Py.ClientError, ent, []).
Proof.
  intros Hdown. unfold async_update. unfold_handler.
  cbn. rewrite Hdown. reflexivity.
Qed.

(** C7: a poll that succeeds, that is whose refresh of the device returns,
    sets the state from the playing signal of the device, [true] to playing
    and [false] to off; it never yields paused or idle, and a paused entity
    is playing or off afterwards. *)
Theorem poll_state_from_playing_signal (dev : Handle) (ent : VestelDevice) :
  returns dev [] Device.update = true ->
  exists ent',
    run async_update dev ent = (Py.Ok tt, ent', [Call Device.update])
    /\ (get_state dev = true -> _state ent' = STATE_PLAYING)
    /\ (get_state dev = false -> _state ent' = STATE_OFF)
    /\ _state ent' <> STATE_PAUSED
    /\ _state ent' <> STATE_IDLE
    /\ (_state ent = STATE_PAUSED ->
        _state ent' = STATE_PLAYING \/ _state ent' = STATE_OFF).
Proof.
  intros Hdev.
  destruct (update_run dev ent Hdev) as (ent' & Hrun & _ & Hstate & _).
  exists ent'. split; [exact Hrun|]. rewrite Hstate.
  destruct (get_state dev); repeat split; intros; try discriminate; auto.
Qed.

Lemma poll_state_from_playing_signal_witness :
  returns (tv_handle false (Some "Netflix") None) [] Device.update = true
  /\ exists ent',
       run async_update (tv_handle false (Some "Netflix") None)
           (entity DEFAULT_SOURCES "Netflix" STATE_PAUSED)
         = (Py.Ok tt, ent', [Call Device.update])
       /\ _state ent' = STATE_OFF.
Proof.
  assert (Hdev : returns (tv_handle false (Some "Netflix") None) []
                    Device.update = true) by reflexivity.
  split; [exact Hdev|].
  destruct (poll_state_from_playing_signal
              (tv_handle false (Some "Netflix") None)
              (entity DEFAULT_SOURCES "Netflix" STATE_PAUSED) Hdev)
    as (ent' & Hrun & _ & Hoff & _).
  exists ent'. split; [exact Hrun|]. apply Hoff. reflexivity.
Defined.

(** C4: a poll that succeeds derives the current source by the first rule
    that applies:
    (a) the title contains "TV": the source is "TV"; (b) the title is a
    configured source: the source is the title; (c) the source reported by
    the device is a configured source: that one; (d) otherwise the source
    stays what it was.  A title that contains "TV" and is itself a
    configured source other than "TV" gives "TV". *)
Theorem poll_source_precedence (dev : Handle) (ent : VestelDevice) :
  returns dev [] Device.update = true ->
  let title := default "" (get_media_title dev) in
  let has_tv := exists pre post, title = pre +:+ "TV" +:+ post in
  exists ent',
    run async_update dev ent = (Py.Ok tt, ent', [Call Device.update])
    /\ (has_tv -> _current_source ent' = "TV")
    /\ (~ has_tv -> title ∈ _sources_list ent ->
        _current_source ent' = title)
    /\ (~ has_tv -> title ∉ _sources_list ent ->
        forall s, device_source dev = Some s -> s ∈ _sources_list ent ->
        _current_source ent' = s)
    /\ (~ has_tv -> title ∉ _sources_list ent ->
        (forall s, device_source dev = Some s -> s ∉ _sources_list ent) ->
        _current_source ent' = _current_source ent)
    /\ (has_tv -> title ∈ _sources_list ent -> title <> "TV" ->
        _current_source ent' = "TV" /\ _current_source ent' <> title).
Proof.
  intros Hdev title has_tv.
  destruct (update_run dev ent Hdev) as (ent' & Hrun & _ & _ & Hsrc).
  exists ent'. split; [exact Hrun|].
  cbv zeta in Hsrc. fold title in Hsrc.
  assert (Htv : Py.contains "TV" title = true <-> has_tv)
    by apply contains_spec.
  destruct (Py.contains "TV" title) eqn:Hc.
  - assert (has_tv) by (apply Htv; reflexivity).
    repeat split; intros; try contradiction; congruence.
  - assert (~ has_tv) by (intros Hh; apply Htv in Hh; discriminate).
    case_bool_decide as Hin.
    + repeat split; intros; try contradiction; congruence.
    + destruct (device_source dev) as [s|] eqn:Hs.
      * clear Htv. case_bool_decide as Hins;
          repeat split; intros; try contradiction; try congruence;
          naive_solver.
      * repeat split; intros; try contradiction; congruence.
Qed.

Lemma poll_source_precedence_witness :
  returns (tv_handle true (Some "Netflix TV") (Some "Netflix")) []
    Device.update = true
  /\ exists ent',
       run async_update (tv_handle true (Some "Netflix TV") (Some "Netflix"))
           (entity ["TV"; "Netflix TV"] "Netflix TV" STATE_PLAYING)
         = (Py.Ok tt, ent', [Call Device.update])
       /\ _current_source ent' = "TV".
Proof.
  assert (Hdev : returns (tv_handle true (Some "Netflix TV") (Some "Netflix"))
                    [] Device.update = true) by reflexivity.
  split; [exact Hdev|].
  destruct (poll_source_precedence
              (tv_handle true (Some "Netflix TV") (Some "Netflix"))
              (entity ["TV"; "Netflix TV"] "Netflix TV" STATE_PLAYING) Hdev)
    as (ent' & Hrun & Htv & _).
  exists ent'. split; [exact Hrun|].
  apply Htv. exists "Netflix ", "". reflexivity.
Defined.

(** ** Power *)

(** C6: turn-off does nothing (no effect, same entity) when the state is
    off, and otherwise sends power-off and sets the state to off; turn-on
    does nothing when the state is not off, and otherwise sends power-on
    and sets the state to playing.  Issued twice in a row, either command
    does what it does issued once: the second one meets its guard closed. *)
Theorem turn_on_off_guarded (dev : Handle) (ent : VestelDevice) :
  (_state ent = STATE_OFF ->
   run async_turn_off dev ent = (Py.Ok tt, ent, []))
  /\ (_state ent <> STATE_OFF -> responsive dev ->
      run async_turn_off dev ent =
        (Py.Ok tt, with_state STATE_OFF ent,
         [Call Device.turn_off; AddJob_update_ha_state]))
  /\ (_state ent <> STATE_OFF ->
      run async_turn_on dev ent = (Py.Ok tt, ent, []))
  /\ (_state ent = STATE_OFF -> responsive dev ->
      run async_turn_on dev ent =
        (Py.Ok tt, with_state STATE_PLAYING ent,
         [Call Device.turn_on; AddJob_update_ha_state]))
  /\ (responsive dev ->
      run (async_turn_off;; async_turn_off) dev ent = run async_turn_off dev ent
      /\ run (async_turn_on;; async_turn_on) dev ent = run async_turn_on dev ent).
Proof.
  repeat split.
  - apply turn_off_when_off.
  - intros. now apply turn_off_when_on.
  - apply turn_on_when_on.
  - intros. now apply turn_on_when_off.
  - now apply turn_off_twice.
  - now apply turn_on_twice.
Qed.

Lemma turn_on_off_guarded_witness :
  responsive (tv_handle true None None)
  /\ run async_turn_off (tv_handle true None None)
         (entity DEFAULT_SOURCES "TV" STATE_PLAYING)
       = (Py.Ok tt, entity DEFAULT_SOURCES "TV" STATE_OFF,
          [Call Device.turn_off; AddJob_update_ha_state])
  /\ run async_turn_on (tv_handle true None None)
         (entity DEFAULT_SOURCES "TV" STATE_PLAYING)
       = (Py.Ok tt, entity DEFAULT_SOURCES "TV" STATE_PLAYING, []).
Proof.
  assert (Hdev : responsive (tv_handle true None None))
    by (intros ? ?; reflexivity).
  split; [exact Hdev|].
  destruct (turn_on_off_guarded (tv_handle true None None)
              (entity DEFAULT_SOURCES "TV" STATE_PLAYING))
    as (_ & Hoff & Hon & _).
  split; [apply Hoff; [discriminate|exact Hdev]|apply Hon; discriminate].
Defined.

(** ** Mute *)

(** C3: whatever its argument, the mute handler makes the toggle-mute call
    of the device and nothing else; after two mute calls in a row the mute
    flag of the television is what it was before them. *)
Theorem mute_toggles (Tv : Type) `{Television Tv}
    (dev : Handle) (ent : VestelDevice) (b1 b2 : bool) (tv : Tv) :
  responsive dev ->
  toggle_flips Tv ->
  run (async_mute_volume b1) dev ent = (Py.Ok tt, ent, [Call Device.toggle_mute])
  /\ run (async_mute_volume b1) dev ent = run (async_mute_volume b2) dev ent
  /\ run (async_mute_volume b1;; async_mute_volume b2) dev ent =
       (Py.Ok tt, ent, [Call Device.toggle_mute; Call Device.toggle_mute])
  /\ muted (after (run (async_mute_volume b1;; async_mute_volume b2) dev ent).2 tv)
       = muted tv.
Proof.
  intros Hdev Hflip.
  assert (Htwice : run (async_mute_volume b1;; async_mute_volume b2) dev ent =
            (Py.Ok tt, ent, [Call Device.toggle_mute; Call Device.toggle_mute])).
  { unfold async_mute_volume. unfold_handler. cbn. rewrite !Hdev.
    reflexivity. }
  split; [|split; [reflexivity|split; [exact Htwice|]]].
  - unfold async_mute_volume. unfold_handler. cbn. rewrite Hdev. reflexivity.
  - rewrite Htwice. cbn. rewrite !Hflip. apply negb_involutive.
Qed.

Lemma mute_toggles_witness :
  responsive (tv_handle true None None)
  /\ toggle_flips bool
  /\ run (async_mute_volume true;; async_mute_volume true)
         (tv_handle true None None) (entity DEFAULT_SOURCES "TV" STATE_PLAYING)
       = (Py.Ok tt, entity DEFAULT_SOURCES "TV" STATE_PLAYING,
          [Call Device.toggle_mute; Call Device.toggle_mute])
  /\ muted (after (run (async_mute_volume true;; async_mute_volume true)
                     (tv_handle true None None)
                     (entity DEFAULT_SOURCES "TV" STATE_PLAYING)).2 false)
       = false.
Proof.
  assert (Hdev : responsive (tv_handle true None None))
    by (intros ? ?; reflexivity).
  assert (Hflip : toggle_flips bool) by (intros ?; reflexivity).
  split; [exact Hdev|]. split; [exact Hflip|].
  destruct (mute_toggles bool (tv_handle true None None)
              (entity DEFAULT_SOURCES "TV" STATE_PLAYING) true true false
              Hdev Hflip) as (_ & _ & Hrun & Hflag).
  split; [exact Hrun|exact Hflag].
Defined.

(** ** Source selection *)

(** What [async_select_source] does, by the source left and the source
    entered. *)
Lemma select_source_run (dev : Handle) (ent : VestelDevice) (s : string) :
  responsive dev ->
  let leave :=
    if String.eqb (_current_source ent) "Netflix"
    then [Call Device.stop_netflix; Sleep 3]
    else if String.eqb (_current_source ent) "YouTube"
    then [Call Device.stop_youtube; Sleep 3]
    else [] in
  run (async_select_source s) dev ent =
    if String.eqb s "YouTube" then
      (Py.Ok tt, with_current_source s ent, (leave ++ [Call Device.start_youtube])%list)
    else if String.eqb s "Netflix" then
      (Py.Ok tt, with_current_source s ent, (leave ++ [Call Device.start_netflix])%list)
    else
      match Py.index s (_sources_list ent) with
      | Some i =>
          (Py.Ok tt, with_current_source s ent,
           (leave ++ [Call (Device.sendkey 1056);
                      Call (Device.sendkey (1001 + Z.of_nat i))])%list)
      | None =>
          (Py.Raise Py.ValueError, ent,
           (leave ++ [Call (Device.sendkey 1056)])%list)
      end.
Proof.
  intros Hdev leave. subst leave.
  unfold async_select_source. unfold_handler. cbn.
  destruct (String.eqb (_current_source ent) "Netflix");
    [|destruct (String.eqb (_current_source ent) "YouTube")];
    cbn; rewrite ?Hdev; cbn;
    (destruct (String.eqb s "YouTube");
     [|destruct (String.eqb s "Netflix")]);
    cbn; rewrite ?Hdev; cbn; try reflexivity;
    (destruct (Py.index s (_sources_list ent)); cbn; rewrite ?Hdev; reflexivity).
Qed.

(** C5: selecting "Netflix" while the current source is "YouTube" (whatever
    the configured list, so with ["TV"; "Netflix"; "YouTube"]) makes, in
    order, the stop-YouTube call, a sleep of 3, the start-Netflix call, and
    sets the current source to "Netflix"; no key is sent. *)
Theorem select_netflix_from_youtube (dev : Handle) (ent : VestelDevice) :
  responsive dev ->
  _current_source ent = "YouTube" ->
  run (async_select_source "Netflix") dev ent =
    (Py.Ok tt, with_current_source "Netflix" ent,
     [Call Device.stop_youtube; Sleep 3; Call Device.start_netflix])
  /\ keys (run (async_select_source "Netflix") dev ent).2 = [].
Proof.
  intros Hdev Hcur.
  rewrite (select_source_run dev ent "Netflix" Hdev). rewrite Hcur.
  split; reflexivity.
Qed.

Lemma select_netflix_from_youtube_witness :
  responsive (tv_handle true None None)
  /\ _current_source (entity ["TV"; "Netflix"; "YouTube"] "YouTube" STATE_PLAYING)
       = "YouTube"
  /\ run (async_select_source "Netflix") (tv_handle true None None)
         (entity ["TV"; "Netflix"; "YouTube"] "YouTube" STATE_PLAYING)
       = (Py.Ok tt, entity ["TV"; "Netflix"; "YouTube"] "Netflix" STATE_PLAYING,
          [Call Device.stop_youtube; Sleep 3; Call Device.start_netflix]).
Proof.
  assert (Hdev : responsive (tv_handle true None None))
    by (intros ? ?; reflexivity).
  split; [exact Hdev|]. split; [reflexivity|].
  apply (select_netflix_from_youtube (tv_handle true None None)
           (entity ["TV"; "Netflix"; "YouTube"] "YouTube" STATE_PLAYING)
           Hdev eq_refl).
Defined.

(** C9: there is no guard on the current source.  Selecting [s], a
    configured source or one of the two applications, when [s] is already
    current runs the whole sequence: the leaving block for [s], then the
    entering part, the start call of the application or the source-menu key
    and the key of the position of [s].  From any other current source the
    entering part is the same and only the leaving block differs, by the
    source left: with the same leaving branch the two logs are equal. *)
Theorem select_current_source_no_guard
    (dev : Handle) (ent : VestelDevice) (s : string) :
  responsive dev ->
  s ∈ _sources_list ent \/ s = "Netflix" \/ s = "YouTube" ->
  _current_source ent = s ->
  exists enter,
    (s = "Netflix" -> enter = [Call Device.start_netflix])
    /\ (s = "YouTube" -> enter = [Call Device.start_youtube])
    /\ (s <> "Netflix" -> s <> "YouTube" ->
        exists i, Py.index s (_sources_list ent) = Some i
                  /\ enter = [Call (Device.sendkey 1056);
                              Call (Device.sendkey (1001 + Z.of_nat i))])
    /\ run (async_select_source s) dev ent =
         (Py.Ok tt, with_current_source s ent, (leaving s ++ enter)%list)
    /\ (forall other,
          _sources_list other = _sources_list ent ->
          run (async_select_source s) dev other =
            (Py.Ok tt, with_current_source s other,
             (leaving (_current_source other) ++ enter)%list))
    /\ (forall other,
          _sources_list other = _sources_list ent ->
          leaving (_current_source other) = leaving s ->
          (run (async_select_source s) dev other).2
            = (run (async_select_source s) dev ent).2).
Proof.
  intros Hdev Hs Hcur.
  assert (Hrun : forall x, _sources_list x = _sources_list ent ->
            run (async_select_source s) dev x =
              if String.eqb s "YouTube" then
                (Py.Ok tt, with_current_source s x,
                 (leaving (_current_source x) ++ [Call Device.start_youtube])%list)
              else if String.eqb s "Netflix" then
                (Py.Ok tt, with_current_source s x,
                 (leaving (_current_source x) ++ [Call Device.start_netflix])%list)
              else
                match Py.index s (_sources_list ent) with
                | Some i =>
                    (Py.Ok tt, with_current_source s x,
                     (leaving (_current_source x)
                      ++ [Call (Device.sendkey 1056);
                          Call (Device.sendkey (1001 + Z.of_nat i))])%list)
                | None =>
                    (Py.Raise Py.ValueError, x,
                     (leaving (_current_source x)
                      ++ [Call (Device.sendkey 1056)])%list)
                end).
  { intros x Hx. rewrite (select_source_run dev x s Hdev). cbv zeta.
    rewrite Hx. reflexivity. }
  pose proof (Hrun ent eq_refl) as Hent. rewrite Hcur in Hent. clear Hcur.
  destruct (String.eqb_spec s "YouTube") as [Hyt|Hnyt].
  { exists [Call Device.start_youtube]. subst s.
    split; [discriminate|]. split; [reflexivity|].
    split; [intros _ Hne; now destruct Hne|].
    split; [exact Hent|].
    split; intros other Hlist; [|intros Hleave];
      rewrite (Hrun other Hlist), ?Hent; cbn [snd]; [reflexivity|].
    now rewrite Hleave. }
  destruct (String.eqb_spec s "Netflix") as [Hnf|Hnnf].
  { exists [Call Device.start_netflix]. subst s.
    split; [reflexivity|]. split; [discriminate|].
    split; [intros Hne; now destruct Hne|].
    split; [exact Hent|].
    split; intros other Hlist; [|intros Hleave];
      rewrite (Hrun other Hlist), ?Hent; cbn [snd]; [reflexivity|].
    now rewrite Hleave. }
  destruct Hs as [Hin|[?|?]]; try contradiction.
  destruct (index_elem_of s _ Hin) as [i Hi]. rewrite Hi in Hent.
  exists [Call (Device.sendkey 1056); Call (Device.sendkey (1001 + Z.of_nat i))].
  split; [intros; contradiction|]. split; [intros; contradiction|].
  split; [intros _ _; exists i; split; [exact Hi|reflexivity]|].
  split; [exact Hent|].
  split; intros other Hlist; [|intros Hleave];
    rewrite (Hrun other Hlist), ?Hent; rewrite Hi; cbn [snd]; [reflexivity|].
  now rewrite Hleave.
Qed.

Lemma select_current_source_no_guard_witness :
  responsive (tv_handle true None None)
  /\ run (async_select_source "Netflix") (tv_handle true None None)
         (entity ["TV"; "HDMI"] "Netflix" STATE_PLAYING)
       = (Py.Ok tt, entity ["TV"; "HDMI"] "Netflix" STATE_PLAYING,
          [Call Device.stop_netflix; Sleep 3; Call Device.start_netflix])
  /\ run (async_select_source "Netflix") (tv_handle true None None)
         (entity ["TV"; "HDMI"] "HDMI" STATE_PLAYING)
       = (Py.Ok tt, entity ["TV"; "HDMI"] "Netflix" STATE_PLAYING,
          [Call Device.start_netflix]).
Proof.
  assert (Hdev : responsive (tv_handle true None None))
    by (intros ? ?; reflexivity).
  split; [exact Hdev|].
  destruct (select_current_source_no_guard (tv_handle true None None)
              (entity ["TV"; "HDMI"] "Netflix" STATE_PLAYING) "Netflix" Hdev)
    as (enter & Hnetflix & _ & _ & Hsame & Hother & _);
    [right; left; reflexivity|reflexivity|].
  rewrite (Hnetflix eq_refl) in Hsame, Hother.
  split; [exact Hsame|].
  exact (Hother (entity ["TV"; "HDMI"] "HDMI" STATE_PLAYING) eq_refl).
Defined.

(** C10: selecting a source that is neither "Netflix" nor "YouTube" nor in
    the configured list raises [ValueError] from the index lookup, after
    the source-menu key 1056 was sent: that key is the last effect and the
    only key of the log, and the entity, so its current source, is
    unchanged. *)
Theorem select_unknown_source_raises
    (dev : Handle) (ent : VestelDevice) (s : string) :
  responsive dev ->
  s <> "Netflix" -> s <> "YouTube" -> s ∉ _sources_list ent ->
  Py.index s (_sources_list ent) = None
  /\ exists before,
       run (async_select_source s) dev ent =
         (Py.Raise Py.ValueError, ent,
          (before ++ [Call (Device.sendkey 1056)])%list)
       /\ keys (before ++ [Call (Device.sendkey 1056)])%list = [1056].
Proof.
  intros Hdev Hnf Hyt Hnotin.
  assert (Hidx : Py.index s (_sources_list ent) = None)
    by now apply index_None.
  split; [exact Hidx|].
  rewrite (select_source_run dev ent s Hdev). cbv zeta. rewrite Hidx.
  destruct (String.eqb_spec s "YouTube") as [|_]; [contradiction|].
  destruct (String.eqb_spec s "Netflix") as [|_]; [contradiction|].
  eexists. split; [reflexivity|].
  destruct (String.eqb (_current_source ent) "Netflix");
    [|destruct (String.eqb (_current_source ent) "YouTube")]; reflexivity.
Qed.

Lemma select_unknown_source_raises_witness :
  responsive (tv_handle true None None)
  /\ ("HDMI" ∉ DEFAULT_SOURCES)
  /\ exists before,
       run (async_select_source "HDMI") (tv_handle true None None)
           (entity DEFAULT_SOURCES "YouTube" STATE_PLAYING)
         = (Py.Raise Py.ValueError,
            entity DEFAULT_SOURCES "YouTube" STATE_PLAYING,
            (before ++ [Call (Device.sendkey 1056)])%list)
       /\ keys (before ++ [Call (Device.sendkey 1056)])%list = [1056].
Proof.
  assert (Hdev : responsive (tv_handle true None None))
    by (intros ? ?; reflexivity).
  assert (Hnotin : "HDMI" ∉ DEFAULT_SOURCES)
    by (apply index_None; reflexivity).
  split; [exact Hdev|]. split; [exact Hnotin|].
  apply (select_unknown_source_raises (tv_handle true None None)
           (entity DEFAULT_SOURCES "YouTube" STATE_PLAYING) "HDMI" Hdev);
    [discriminate|discriminate|exact Hnotin].
Defined.

(** ** Stop *)

Lemma stop_run (dev : Handle) (ent : VestelDevice) :
  responsive dev ->
  run async_media_stop dev ent =
    (Py.Raise (Py.NameError "STATE_STOP"), ent, [Call (Device.sendkey 1024)]).
Proof.
  intros Hdev. unfold async_media_stop. unfold_handler.
  cbn. rewrite Hdev. reflexivity.
Qed.

(** C2 fails on the code at a playing entity: the stop handler sends key
    1024 and then raises on the name STATE_STOP, which the module binds to
    nothing.  No state is assigned, the entity is still playing, and the
    host update is not scheduled; the pause handler next to it sends its
    key, stores its state and schedules the update. *)
Theorem stop_on_playing_entity :
  run async_media_stop (tv_handle true None None)
      (entity DEFAULT_SOURCES "TV" STATE_PLAYING)
    = (Py.Raise (Py.NameError "STATE_STOP"),
       entity DEFAULT_SOURCES "TV" STATE_PLAYING,
       [Call (Device.sendkey 1024)])
  /\ module_globals !! "STATE_STOP" = None
  /\ run async_media_pause (tv_handle true None None)
         (entity DEFAULT_SOURCES "TV" STATE_PLAYING)
       = (Py.Ok tt, entity DEFAULT_SOURCES "TV" STATE_PAUSED,
          [Call (Device.sendkey 1049); AddJob_update_ha_state]).
Proof. repeat split. Qed.

(** ** Channel entry *)

(** With floor division the units expression is [1000 + n mod 10]. *)
Remark units_floor_identity (n : Z) : 1000 - n / 10 * 10 + n = 1000 + n mod 10.
Proof. pose proof (Z.div_mod n 10 ltac:(lia)). lia. Qed.

(** C8, as stated, fails: at [10 * 2 ^ 50 + 9] the float quotient rounds up
    to the next integer and the units expression is 999, not 1009. *)
Lemma units_key_rounds_up :
  units_key 11258999068426249 = Py.Ok 999
  /\ 1000 + 11258999068426249 mod 10 = 1009
  /\ units_key 11258999068426249 <> Py.Ok (1000 + 11258999068426249 mod 10).
Proof. repeat split. discriminate. Qed.

(** C8, amended: for every positive channel number below
    [10 * 2 ^ 50 + 9 = 11258999068426249], the units key
    [1000 - int(N / 10) * 10 + N] is [1000 + N mod 10]. *)
Theorem units_key_mod10 (N : Z) :
  0 < N < 11258999068426249 ->
  units_key N = Py.Ok (1000 + N mod 10).
Proof.
  intros HN. unfold units_key.
  rewrite int_truediv_10 by lia. f_equal. apply units_floor_identity.
Qed.

Lemma units_key_mod10_witness :
  0 < 123 < 11258999068426249 /\ units_key 123 = Py.Ok (1000 + 123 mod 10).
Proof.
  split; [lia|]. apply (units_key_mod10 123). lia.
Defined.

(** The keys that [async_play_media] sends for a channel of up to three
    digits. *)
Lemma play_media_run (dev : Handle) (ent : VestelDevice) (N : Z) :
  responsive dev -> 1 <= N <= 999 ->
  run (async_play_media MEDIA_TYPE_CHANNEL N) dev ent =
    (Py.Ok tt, ent,
     map (fun k => Call (Device.sendkey k))
       ((if 99 <? N then [1000 + N / 100] else [])
        ++ (if 9 <? N then [1000 + N / 10] else [])
        ++ [1000 + N mod 10; 1053])%list).
Proof.
  intros Hdev HN. unfold async_play_media. unfold_handler.
  unfold hundreds_key, tens_key, units_key. cbv zeta.
  rewrite (int_truediv_exact N 100), (int_truediv_10 N) by lia.
  rewrite units_floor_identity.
  cbn -[Z.add Z.div Z.modulo Z.ltb].
  destruct (99 <? N), (9 <? N); cbn -[Z.add Z.div Z.modulo];
    rewrite ?Hdev; cbn -[Z.add Z.div Z.modulo];
    rewrite ?Hdev; cbn -[Z.add Z.div Z.modulo];
    rewrite ?Hdev; cbn -[Z.add Z.div Z.modulo];
    rewrite ?Hdev; reflexivity.
Qed.

Lemma digit_of_key_digit (d : Z) :
  0 <= d <= 9 -> digit_of_key (1000 + d) = Some d.
Proof.
  intros Hd. unfold digit_of_key.
  destruct (Z.leb_spec 1000 (1000 + d)); [|lia].
  destruct (Z.leb_spec (1000 + d) 1009); [|lia].
  cbn. f_equal. lia.
Qed.

Lemma digit_of_key_above (k : Z) : 1009 < k -> digit_of_key k = None.
Proof.
  intros Hk. unfold digit_of_key.
  destruct (Z.leb_spec k 1009); [lia|]. now rewrite andb_false_r.
Qed.

(** Below 100 the keys sent are the digit keys of the base-10 digits of the
    channel, which spell the channel, and then the confirm key. *)
Lemma play_media_below_100 (dev : Handle) (ent : VestelDevice) (N : Z) :
  responsive dev -> 1 <= N <= 99 ->
  keys (run (async_play_media MEDIA_TYPE_CHANNEL N) dev ent).2
    = (map (Z.add 1000) (digits N) ++ [1053])%list
  /\ number_of_keys 0 (map (Z.add 1000) (digits N)) = Some N.
Proof.
  intros Hdev HN. rewrite play_media_run by (auto; lia).
  unfold digits.
  destruct (Z.ltb_spec 99 N) as [|_]; [lia|].
  destruct (Z.ltb_spec 9 N) as [Htwo|Hone].
  - assert (Ht : 1 <= N / 10 < 10).
    { split; [apply Z.div_le_lower_bound|apply Z.div_lt_upper_bound]; lia. }
    rewrite (Z.mod_small (N / 10)) by lia.
    split; [reflexivity|].
    pose proof (Z.mod_pos_bound N 10 ltac:(lia)).
    cbn [map number_of_keys].
    rewrite !digit_of_key_digit by lia.
    f_equal. pose proof (Z.div_mod N 10 ltac:(lia)). lia.
  - split; [reflexivity|].
    rewrite Z.mod_small by lia.
    cbn [map number_of_keys]. rewrite digit_of_key_digit by lia.
    f_equal.
Qed.

(** From 100 on the second key is [1000 + N / 10], beyond the digit keys:
    the keys sent spell no number. *)
Lemma play_media_from_100 (dev : Handle) (ent : VestelDevice) (N : Z) :
  responsive dev -> 100 <= N <= 999 ->
  keys (run (async_play_media MEDIA_TYPE_CHANNEL N) dev ent).2
    = [1000 + N / 100; 1000 + N / 10; 1000 + N mod 10; 1053]
  /\ 1010 <= 1000 + N / 10
  /\ number_of_keys 0 [1000 + N / 100; 1000 + N / 10; 1000 + N mod 10] = None.
Proof.
  intros Hdev HN. rewrite play_media_run by (auto; lia).
  destruct (Z.ltb_spec 99 N) as [_|]; [|lia].
  destruct (Z.ltb_spec 9 N) as [_|]; [|lia].
  assert (Hh : 1 <= N / 100 < 10).
  { split; [apply Z.div_le_lower_bound|apply Z.div_lt_upper_bound]; lia. }
  assert (Ht : 10 <= N / 10) by (apply Z.div_le_lower_bound; lia).
  repeat split; [lia|].
  cbn [number_of_keys]. rewrite digit_of_key_digit by lia.
  rewrite (digit_of_key_above (1000 + N / 10)) by lia. reflexivity.
Qed.

(** C1 fails on the code at channel 123: the keys sent are 1001, 1012, 1003
    and 1053.  The second is not the digit key 1002 of the tens digit but
    [1000 + 123 / 10], no digit key at all, so the keys spell no number. *)
Theorem play_media_channel_123 :
  run (async_play_media MEDIA_TYPE_CHANNEL 123) (tv_handle true None None)
      (entity DEFAULT_SOURCES "TV" STATE_PLAYING)
    = (Py.Ok tt, entity DEFAULT_SOURCES "TV" STATE_PLAYING,
       [Call (Device.sendkey 1001); Call (Device.sendkey 1012);
        Call (Device.sendkey 1003); Call (Device.sendkey 1053)])
  /\ map (Z.add 1000) (digits 123) = [1001; 1002; 1003]
  /\ digit_of_key 1012 = None
  /\ number_of_keys 0 [1001; 1012; 1003] = None
  /\ number_of_keys 0 [1001; 1002; 1003] = Some 123.
Proof. repeat split. Qed.

(** ** Construction and pass-through handlers *)

Example init_default_sources :
  init "Vestel" DEFAULT_SOURCES
    = Py.Ok (entity DEFAULT_SOURCES "TV" STATE_UNKNOWN).
Proof. reflexivity. Qed.

Example init_no_sources : init "Vestel" [] = Py.Raise Py.IndexError.
Proof. reflexivity. Qed.

Example poll_on_dead_handle :
  run async_update dead_handle (entity DEFAULT_SOURCES "TV" STATE_PAUSED)
    = (Py.Raise Py.ClientError, entity DEFAULT_SOURCES "TV" STATE_PAUSED, []).
Proof. now apply update_unreachable. Qed.

Lemma send_key_passthrough (dev : Handle) (ent : VestelDevice) (key : Z) :
  responsive dev ->
  run (async_send_key key) dev ent = (Py.Ok tt, ent, [Call (Device.sendkey key)]).
Proof.
  intros Hdev. unfold async_send_key. unfold_handler.
  cbn. rewrite Hdev. reflexivity.
Qed.

Lemma play_then_pause (dev : Handle) (ent : VestelDevice) :
  responsive dev ->
  run (async_media_play;; async_media_pause) dev ent =
    (Py.Ok tt, with_state STATE_PAUSED ent,
     [Call (Device.sendkey 1025); AddJob_update_ha_state;
      Call (Device.sendkey 1049); AddJob_update_ha_state]).
Proof.
  intros Hdev. unfold async_media_play, async_media_pause. unfold_handler.
  cbn. rewrite !Hdev. reflexivity.
Qed.

(** ** What any handler may do to the entity *)

#[local] Set Warnings "-clear-no-such-hyp".

Ltac split_run :=
  repeat (cbn -[Py.int_truediv Py.index Py.contains Z.add Z.sub Z.mul Z.ltb];
          match goal with
          | |- context [returns ?d ?h ?c] => destruct (returns d h c) eqn:?
          | |- context [Py.int_truediv ?a ?b] => destruct (Py.int_truediv a b)
          | |- context [Py.index ?a ?b] => destruct (Py.index a b) eqn:?
          | |- context [Py.contains ?a ?b] => destruct (Py.contains a b) eqn:?
          | |- context [bool_decide ?P] => destruct (bool_decide_reflect P)
          | |- context [String.eqb ?a ?b] => destruct (String.eqb_spec a b)
          | |- context [Z.ltb ?a ?b] => destruct (Z.ltb a b)
          | |- context [get_state ?d] => destruct (get_state d)
          | |- context [device_source ?d] => destruct (device_source d) eqn:?
          end).

Lemma index_Some_elem_of (x : string) (l : list string) (i : nat) :
  Py.index x l = Some i -> x ∈ l.
Proof.
  intros Hi. apply index_Some in Hi as [Hi _].
  eapply list_elem_of_lookup_2; eauto.
Qed.

(** A handler keeps the name and the source list, stores no state but off,
    playing or paused, stores no source but "TV", a configured source or
    one of the two applications, and leaves the entity alone when it
    raises. *)
Lemma handler_frame (dev : Handle) (ent : VestelDevice) (r : request) :
  let out := run (handler r) dev ent in
  _name out.1.2 = _name ent
  /\ _sources_list out.1.2 = _sources_list ent
  /\ (_state out.1.2 = _state ent
      \/ _state out.1.2 ∈ [STATE_OFF; STATE_PLAYING; STATE_PAUSED])
  /\ (_current_source out.1.2 = _current_source ent
      \/ _current_source out.1.2 ∈ _sources_list ent
      \/ _current_source out.1.2 ∈ ["TV"; "Netflix"; "YouTube"])
  /\ (forall e, out.1.1 = Py.Raise e -> out.1.2 = ent).
Proof.
  destruct r; cbv zeta; unfold handler, async_update, async_send_key,
    async_turn_off, async_turn_on, async_volume_up, async_volume_down,
    async_set_volume_level,
    async_mute_volume, async_media_play, async_media_pause, async_media_stop,
    async_media_next_track, async_media_previous_track, async_play_media,
    async_select_source, hundreds_key, tens_key, units_key, truthy;
    unfold_handler; split_run.
  all: cbn; repeat split; intros; try discriminate; try reflexivity.
  all: try (left; reflexivity).
  all: try (right; unfold STATE_OFF, STATE_PLAYING, STATE_PAUSED; set_solver).
  all: try (right; left; eauto using index_Some_elem_of; fail).
  all: try (right; right; subst; set_solver).
Qed.

Ltac unfold_handlers :=
  unfold handler, async_update, async_send_key,
    async_turn_off, async_turn_on, async_volume_up, async_volume_down,
    async_set_volume_level,
    async_mute_volume, async_media_play, async_media_pause, async_media_stop,
    async_media_next_track, async_media_previous_track, async_play_media,
    async_select_source, hundreds_key, tens_key, units_key, truthy;
  unfold_handler.

Lemma session_frame (reqs : list (Handle * request)) (ent : VestelDevice) :
  _name (session reqs ent) = _name ent
  /\ _sources_list (session reqs ent) = _sources_list ent
  /\ (_state (session reqs ent) = _state ent
      \/ _state (session reqs ent) ∈ [STATE_OFF; STATE_PLAYING; STATE_PAUSED])
  /\ (_current_source (session reqs ent) = _current_source ent
      \/ _current_source (session reqs ent) ∈ _sources_list ent
      \/ _current_source (session reqs ent) ∈ ["TV"; "Netflix"; "YouTube"]).
Proof.
  revert ent. induction reqs as [|[dev r] reqs IH]; intros ent; cbn [session].
  { repeat split; auto. }
  destruct (handler_frame dev ent r) as (Hn & Hl & Hs & Hc & _).
  cbv zeta in Hn, Hl, Hs, Hc.
  destruct (IH (run (handler r) dev ent).1.2) as (Hn' & Hl' & Hs' & Hc').
  rewrite Hn', Hl'. rewrite Hl in Hc'.
  repeat split; auto.
  - destruct Hs' as [->|Hs']; auto.
  - destruct Hc' as [->|Hc']; auto.
Qed.

(** ** Invariants of a session *)

(** Whatever handlers other than stop the host invokes, in any order and
    however the device behaves, the state of a constructed entity is
    unknown, off, playing or paused: none of them stores idle or a state
    outside the declared ones. *)
Theorem session_state_never_idle
    (name : string) (sources : list string) (ent0 : VestelDevice)
    (reqs : list (Handle * request)) :
  init name sources = Py.Ok ent0 ->
  Forall (fun dr : Handle * request => dr.2 <> MediaStop) reqs ->
  _state (session reqs ent0)
    ∈ [STATE_UNKNOWN; STATE_OFF; STATE_PLAYING; STATE_PAUSED]
  /\ _state (session reqs ent0) <> STATE_IDLE
  /\ _state (session reqs ent0) ∈ declared_states.
Proof.
  intros Hinit _.
  assert (H0 : _state ent0 = STATE_UNKNOWN).
  { destruct sources; [discriminate|]. now injection Hinit as <-. }
  destruct (session_frame reqs ent0) as (_ & _ & Hs & _).
  rewrite H0 in Hs. unfold declared_states.
  assert (Hin : _state (session reqs ent0)
                  ∈ [STATE_UNKNOWN; STATE_OFF; STATE_PLAYING; STATE_PAUSED]).
  { destruct Hs as [->|Hs]; set_solver. }
  split; [exact Hin|]. split; [|set_solver].
  intros Hidle. rewrite Hidle in Hin.
  unfold STATE_IDLE, STATE_UNKNOWN, STATE_OFF, STATE_PLAYING, STATE_PAUSED in Hin.
  set_solver.
Qed.

Lemma session_state_never_idle_witness :
  init "Vestel" DEFAULT_SOURCES = Py.Ok (entity DEFAULT_SOURCES "TV" STATE_UNKNOWN)
  /\ Forall (fun dr : Handle * request => dr.2 <> MediaStop)
       [(tv_handle true None None, MediaPause);
        (tv_handle true None None, SetVolumeLevel (Py.F 1 (-1)));
        (dead_handle, Poll)]
  /\ _state (session [(tv_handle true None None, MediaPause);
                      (tv_handle true None None, SetVolumeLevel (Py.F 1 (-1)));
                      (dead_handle, Poll)]
               (entity DEFAULT_SOURCES "TV" STATE_UNKNOWN)) <> STATE_IDLE.
Proof.
  assert (Hreqs : Forall (fun dr : Handle * request => dr.2 <> MediaStop)
            [(tv_handle true None None, MediaPause);
             (tv_handle true None None, SetVolumeLevel (Py.F 1 (-1)));
             (dead_handle, Poll)])
    by (repeat constructor; discriminate).
  split; [reflexivity|]. split; [exact Hreqs|].
  apply (session_state_never_idle "Vestel" DEFAULT_SOURCES
           (entity DEFAULT_SOURCES "TV" STATE_UNKNOWN) _ eq_refl Hreqs).
Defined.

(** The current source of a constructed entity is always a configured
    source, "TV", "Netflix" or "YouTube". *)
Theorem session_source_known
    (name : string) (sources : list string) (ent0 : VestelDevice)
    (reqs : list (Handle * request)) :
  init name sources = Py.Ok ent0 ->
  _current_source (session reqs ent0) ∈ sources
  \/ _current_source (session reqs ent0) ∈ ["TV"; "Netflix"; "YouTube"].
Proof.
  intros Hinit.
  assert (H0 : _sources_list ent0 = sources /\ _current_source ent0 ∈ sources).
  { destruct sources as [|first rest]; [discriminate|].
    injection Hinit as <-. cbn. split; [reflexivity|set_solver]. }
  destruct H0 as [Hl Hc].
  destruct (session_frame reqs ent0) as (_ & _ & _ & Hs).
  rewrite Hl in Hs. destruct Hs as [->|[Hs|Hs]]; auto.
Qed.

Lemma session_source_known_witness :
  init "Vestel" ["HDMI"] = Py.Ok (entity ["HDMI"] "HDMI" STATE_UNKNOWN)
  /\ (_current_source
        (session [(tv_handle true (Some "Live TV") None, Poll);
                  (tv_handle true None None, SelectSource "DVD")]
           (entity ["HDMI"] "HDMI" STATE_UNKNOWN)) ∈ ["HDMI"]
      \/ _current_source
           (session [(tv_handle true (Some "Live TV") None, Poll);
                     (tv_handle true None None, SelectSource "DVD")]
              (entity ["HDMI"] "HDMI" STATE_UNKNOWN))
           ∈ ["TV"; "Netflix"; "YouTube"]).
Proof.
  split; [reflexivity|].
  apply (session_source_known "Vestel" ["HDMI"]
           (entity ["HDMI"] "HDMI" STATE_UNKNOWN)
           [(tv_handle true (Some "Live TV") None, Poll);
            (tv_handle true None None, SelectSource "DVD")] eq_refl).
Defined.

(** A command handler, that is any handler but the poll, that raises,
    because a device call fails, a name is unbound, the source is not in
    the list or the channel quotient overflows, leaves every field of the
    entity as it was: in each command the assignments to the state and the
    current source come after every device call and lookup. *)
Theorem handler_raise_leaves_entity
    (dev : Handle) (ent : VestelDevice) (r : request) (e : Py.exn) :
  r <> Poll ->
  (run (handler r) dev ent).1.1 = Py.Raise e ->
  (run (handler r) dev ent).1.2 = ent.
Proof.
  intros _ Hraise.
  destruct (handler_frame dev ent r) as (_ & _ & _ & _ & Hframe).
  now apply (Hframe e).
Qed.

Lemma handler_raise_leaves_entity_witness :
  SelectSource "DVD" <> Poll
  /\ (run (handler (SelectSource "DVD")) (tv_handle true None None)
        (entity DEFAULT_SOURCES "Netflix" STATE_PLAYING)).1.1
       = Py.Raise Py.ValueError
  /\ (run (handler (SelectSource "DVD")) (tv_handle true None None)
        (entity DEFAULT_SOURCES "Netflix" STATE_PLAYING)).1.2
       = entity DEFAULT_SOURCES "Netflix" STATE_PLAYING.
Proof.
  assert (Hcmd : SelectSource "DVD" <> Poll) by discriminate.
  split; [exact Hcmd|]. split; [reflexivity|].
  apply (handler_raise_leaves_entity (tv_handle true None None)
           (entity DEFAULT_SOURCES "Netflix" STATE_PLAYING)
           (SelectSource "DVD") Py.ValueError Hcmd eq_refl).
Defined.

(** With a device none of whose calls returns, no handler changes the
    entity, sleeps, or schedules a host update. *)
Theorem unreachable_device_no_effect
    (dev : Handle) (ent : VestelDevice) (r : request) :
  unreachable dev ->
  (run (handler r) dev ent).1.2 = ent /\ (run (handler r) dev ent).2 = [].
Proof.
  intros Hdown. destruct r; unfold_handlers; split_run.
  all: cbn; try (split; reflexivity).
  all: match goal with
       | H : returns _ _ _ = true |- _ => rewrite Hdown in H; discriminate
       end.
Qed.

Lemma unreachable_device_no_effect_witness :
  unreachable dead_handle
  /\ (run (handler (SelectSource "Netflix")) dead_handle
        (entity DEFAULT_SOURCES "YouTube" STATE_PLAYING)).1.2
       = entity DEFAULT_SOURCES "YouTube" STATE_PLAYING
  /\ (run (handler (SelectSource "Netflix")) dead_handle
        (entity DEFAULT_SOURCES "YouTube" STATE_PLAYING)).2 = [].
Proof.
  assert (Hdown : unreachable dead_handle) by (intros ? ?; reflexivity).
  split; [exact Hdown|].
  apply (unreachable_device_no_effect dead_handle
           (entity DEFAULT_SOURCES "YouTube" STATE_PLAYING)
           (SelectSource "Netflix") Hdown).
Defined.

(** ** Source selection, continued *)

(** For a configured source other than the two applications, the key sent
    after the source-menu key is 1001 plus the first position of the source
    in the configured list: the entry of the list at that key is the source
    selected, and no earlier entry is. *)
Theorem select_source_key_indexes_list
    (dev : Handle) (ent : VestelDevice) (s : string) :
  responsive dev ->
  s <> "Netflix" -> s <> "YouTube" -> s ∈ _sources_list ent ->
  exists i : nat,
    keys (run (async_select_source s) dev ent).2 = [1056; 1001 + Z.of_nat i]
    /\ _sources_list ent !! i = Some s
    /\ (forall j, (j < i)%nat -> _sources_list ent !! j <> Some s)
    /\ 1001 <= 1001 + Z.of_nat i <= 1000 + Z.of_nat (List.length (_sources_list ent)).
Proof.
  intros Hdev Hnf Hyt Hin.
  destruct (index_elem_of s _ Hin) as [i Hi].
  destruct (index_Some s _ i Hi) as [Hlook Hfirst].
  exists i. rewrite (select_source_run dev ent s Hdev). cbv zeta. rewrite Hi.
  destruct (String.eqb_spec s "YouTube") as [|_]; [contradiction|].
  destruct (String.eqb_spec s "Netflix") as [|_]; [contradiction|].
  repeat split; auto.
  - destruct (String.eqb (_current_source ent) "Netflix");
      [|destruct (String.eqb (_current_source ent) "YouTube")]; reflexivity.
  - lia.
  - apply lookup_lt_Some in Hlook. lia.
Qed.

Lemma select_source_key_indexes_list_witness :
  responsive (tv_handle true None None)
  /\ ("HDMI" ∈ ["TV"; "HDMI"; "HDMI"])
  /\ exists i : nat,
       keys (run (async_select_source "HDMI") (tv_handle true None None)
               (entity ["TV"; "HDMI"; "HDMI"] "TV" STATE_PLAYING)).2
         = [1056; 1001 + Z.of_nat i]
       /\ ["TV"; "HDMI"; "HDMI"] !! i = Some "HDMI"
       /\ (forall j, (j < i)%nat -> ["TV"; "HDMI"; "HDMI"] !! j <> Some "HDMI")
       /\ 1001 <= 1001 + Z.of_nat i
            <= 1000 + Z.of_nat (List.length ["TV"; "HDMI"; "HDMI"]).
Proof.
  assert (Hdev : responsive (tv_handle true None None))
    by (intros ? ?; reflexivity).
  assert (Hin : "HDMI" ∈ ["TV"; "HDMI"; "HDMI"])
    by (apply (index_Some_elem_of _ _ 1%nat); reflexivity).
  split; [exact Hdev|]. split; [exact Hin|].
  apply (select_source_key_indexes_list (tv_handle true None None)
           (entity ["TV"; "HDMI"; "HDMI"] "TV" STATE_PLAYING) "HDMI" Hdev);
    [discriminate|discriminate|exact Hin].
Defined.

(** Leaving an application comes first and is followed at once by the
    sleep of 3, whatever source is entered, even one that then fails; there
    is no other sleep, and none at all when no application is left. *)
Theorem select_source_settle_delay
    (dev : Handle) (ent : VestelDevice) (s : string) :
  responsive dev ->
  let l := (run (async_select_source s) dev ent).2 in
  (_current_source ent = "Netflix" ->
   exists rest, l = Call Device.stop_netflix :: Sleep 3 :: rest
                /\ forall n, Sleep n ∉ rest)
  /\ (_current_source ent = "YouTube" ->
      exists rest, l = Call Device.stop_youtube :: Sleep 3 :: rest
                   /\ forall n, Sleep n ∉ rest)
  /\ (_current_source ent <> "Netflix" -> _current_source ent <> "YouTube" ->
      (forall n, Sleep n ∉ l)
      /\ (Call Device.stop_netflix ∉ l) /\ (Call Device.stop_youtube ∉ l)).
Proof.
  intros Hdev l. subst l.
  rewrite (select_source_run dev ent s Hdev). cbv zeta.
  repeat split.
  - intros ->. cbn.
    destruct (String.eqb s "YouTube"); [|destruct (String.eqb s "Netflix");
      [|destruct (Py.index s (_sources_list ent))]];
      eexists; (split; [reflexivity|]); intros ? Hn;
      repeat (apply elem_of_cons in Hn as [Hn|Hn]; [discriminate|]);
      now apply elem_of_nil in Hn.
  - intros ->. cbn.
    destruct (String.eqb s "YouTube"); [|destruct (String.eqb s "Netflix");
      [|destruct (Py.index s (_sources_list ent))]];
      eexists; (split; [reflexivity|]); intros ? Hn;
      repeat (apply elem_of_cons in Hn as [Hn|Hn]; [discriminate|]);
      now apply elem_of_nil in Hn.
  - destruct (String.eqb_spec (_current_source ent) "Netflix"); [contradiction|].
    destruct (String.eqb_spec (_current_source ent) "YouTube"); [contradiction|].
    destruct (String.eqb s "YouTube"); [|destruct (String.eqb s "Netflix");
      [|destruct (Py.index s (_sources_list ent))]];
      cbn; intros ? Hn;
      repeat (apply elem_of_cons in Hn as [Hn|Hn]; [discriminate|]);
      now apply elem_of_nil in Hn.
  - destruct (String.eqb_spec (_current_source ent) "Netflix"); [contradiction|].
    destruct (String.eqb_spec (_current_source ent) "YouTube"); [contradiction|].
    destruct (String.eqb s "YouTube"); [|destruct (String.eqb s "Netflix");
      [|destruct (Py.index s (_sources_list ent))]];
      cbn; intros Hn;
      repeat (apply elem_of_cons in Hn as [Hn|Hn]; [discriminate|]);
      now apply elem_of_nil in Hn.
  - destruct (String.eqb_spec (_current_source ent) "Netflix"); [contradiction|].
    destruct (String.eqb_spec (_current_source ent) "YouTube"); [contradiction|].
    destruct (String.eqb s "YouTube"); [|destruct (String.eqb s "Netflix");
      [|destruct (Py.index s (_sources_list ent))]];
      cbn; intros Hn;
      repeat (apply elem_of_cons in Hn as [Hn|Hn]; [discriminate|]);
      now apply elem_of_nil in Hn.
Qed.

Lemma select_source_settle_delay_witness :
  responsive (tv_handle true None None)
  /\ exists rest,
       (run (async_select_source "DVD") (tv_handle true None None)
          (entity DEFAULT_SOURCES "Netflix" STATE_PLAYING)).2
         = Call Device.stop_netflix :: Sleep 3 :: rest
       /\ forall n, Sleep n ∉ rest.
Proof.
  assert (Hdev : responsive (tv_handle true None None))
    by (intros ? ?; reflexivity).
  split; [exact Hdev|].
  destruct (select_source_settle_delay (tv_handle true None None)
              (entity DEFAULT_SOURCES "Netflix" STATE_PLAYING) "DVD" Hdev)
    as (Hnetflix & _).
  apply Hnetflix. reflexivity.
Defined.

(** However the device behaves, a source selection that returns has stored
    the requested source and nothing else, and the request was for one of
    the two applications or for a configured source. *)
Theorem select_source_ok_sets_source
    (dev : Handle) (ent : VestelDevice) (s : string) :
  (run (async_select_source s) dev ent).1.1 = Py.Ok tt ->
  (run (async_select_source s) dev ent).1.2 = with_current_source s ent
  /\ (s = "Netflix" \/ s = "YouTube" \/ s ∈ _sources_list ent).
Proof.
  unfold_handlers; split_run.
  all: cbn; intros Hok; try discriminate; split; try reflexivity.
  all: eauto using index_Some_elem_of.
Qed.

Lemma select_source_ok_sets_source_witness :
  (run (async_select_source "YouTube") (tv_handle true None None)
     (entity ["TV"] "TV" STATE_PLAYING)).1.1 = Py.Ok tt
  /\ (run (async_select_source "YouTube") (tv_handle true None None)
        (entity ["TV"] "TV" STATE_PLAYING)).1.2
       = entity ["TV"] "YouTube" STATE_PLAYING.
Proof.
  split; [reflexivity|].
  apply (select_source_ok_sets_source (tv_handle true None None)
           (entity ["TV"] "TV" STATE_PLAYING) "YouTube" eq_refl).
Defined.

(** ** Polling, continued *)

(** When the refresh of the device raises, the poll raises that error
    with the state, the current source and the log untouched: the entity
    keeps its last known values. *)
Theorem poll_refresh_failure_keeps_entity (dev : Handle) (ent : VestelDevice) :
  returns dev [] Device.update = false ->
  run async_update dev ent = (Py.Raise Py.ClientError, ent, []).
Proof.
  intros Hdown. unfold async_update. unfold_handler.
  cbn. rewrite Hdown. reflexivity.
Qed.

Lemma poll_refresh_failure_keeps_entity_witness :
  returns dead_handle [] Device.update = false
  /\ run async_update dead_handle (entity DEFAULT_SOURCES "Netflix" STATE_PAUSED)
       = (Py.Raise Py.ClientError,
          entity DEFAULT_SOURCES "Netflix" STATE_PAUSED, []).
Proof.
  split; [reflexivity|].
  apply (poll_refresh_failure_keeps_entity dead_handle
           (entity DEFAULT_SOURCES "Netflix" STATE_PAUSED) eq_refl).
Defined.

(** Polling twice against the same report of the device leaves the entity
    as polling once does. *)
Theorem poll_twice (dev : Handle) (ent : VestelDevice) :
  responsive dev ->
  (run (async_update;; async_update) dev ent).1.1 = Py.Ok tt
  /\ (run (async_update;; async_update) dev ent).1.2
       = (run async_update dev ent).1.2.
Proof.
  intros Hdev. unfold_handlers; split_run.
  all: cbn; try (split; reflexivity).
  all: try match goal with
           | H : returns _ _ _ = false |- _ => rewrite Hdev in H; discriminate
           end.
  all: try contradiction.
  all: split; try reflexivity; try congruence.
Qed.

Lemma poll_twice_witness :
  responsive (tv_handle true (Some "Netflix") (Some "HDMI"))
  /\ (run (async_update;; async_update)
        (tv_handle true (Some "Netflix") (Some "HDMI"))
        (entity DEFAULT_SOURCES "TV" STATE_PAUSED)).1.2
       = (run async_update (tv_handle true (Some "Netflix") (Some "HDMI"))
            (entity DEFAULT_SOURCES "TV" STATE_PAUSED)).1.2.
Proof.
  assert (Hdev : responsive (tv_handle true (Some "Netflix") (Some "HDMI")))
    by (intros ? ?; reflexivity).
  split; [exact Hdev|].
  apply (poll_twice (tv_handle true (Some "Netflix") (Some "HDMI"))
           (entity DEFAULT_SOURCES "TV" STATE_PAUSED) Hdev).
Defined.

(** ** Channel entry and pass-through handlers, continued *)

(** For a media type other than the channel type, play-media returns at
    once: nothing is sent, whatever the media id and the device. *)
Theorem play_media_other_type
    (dev : Handle) (ent : VestelDevice) (media_type : string) (media_id : Z) :
  media_type <> MEDIA_TYPE_CHANNEL ->
  run (async_play_media media_type media_id) dev ent = (Py.Ok tt, ent, []).
Proof.
  intros Hother. unfold_handlers. cbn.
  destruct (String.eqb_spec media_type MEDIA_TYPE_CHANNEL); [contradiction|].
  reflexivity.
Qed.

Lemma play_media_other_type_witness :
  "music" <> MEDIA_TYPE_CHANNEL
  /\ run (async_play_media "music" 12) (tv_handle true None None)
         (entity DEFAULT_SOURCES "TV" STATE_PLAYING)
       = (Py.Ok tt, entity DEFAULT_SOURCES "TV" STATE_PLAYING, []).
Proof.
  assert (Hother : "music" <> MEDIA_TYPE_CHANNEL) by discriminate.
  split; [exact Hother|].
  apply (play_media_other_type (tv_handle true None None)
           (entity DEFAULT_SOURCES "TV" STATE_PLAYING) "music" 12 Hother).
Defined.

(** The forwarding handlers (send-key, volume up and down, mute, next and
    previous track, play-media) never write a field of the entity, never
    schedule a host update and never sleep, whatever their arguments and
    however the device behaves. *)
Theorem passthrough_never_writes
    (dev : Handle) (ent : VestelDevice) (r : request) :
  passthrough r = true ->
  (run (handler r) dev ent).1.2 = ent
  /\ (AddJob_update_ha_state ∉ (run (handler r) dev ent).2)
  /\ forall n, Sleep n ∉ (run (handler r) dev ent).2.
Proof.
  intros Hpass. destruct r; try discriminate; unfold_handlers; split_run.
  all: cbn; repeat split; intros; intros Hin.
  all: match goal with
       | Hin : _ ∈ _ |- _ =>
           repeat (apply elem_of_cons in Hin as [Hin|Hin]; [discriminate|]);
           now apply elem_of_nil in Hin
       end.
Qed.

Lemma passthrough_never_writes_witness :
  passthrough (PlayMedia "channel" 45) = true
  /\ (run (handler (PlayMedia "channel" 45)) (tv_handle true None None)
        (entity DEFAULT_SOURCES "TV" STATE_PAUSED)).1.2
       = entity DEFAULT_SOURCES "TV" STATE_PAUSED.
Proof.
  split; [reflexivity|].
  apply (passthrough_never_writes (tv_handle true None None)
           (entity DEFAULT_SOURCES "TV" STATE_PAUSED)
           (PlayMedia "channel" 45) eq_refl).
Defined.

Lemma play_media_below_100_witness :
  responsive (tv_handle true None None)
  /\ 1 <= 45 <= 99
  /\ keys (run (async_play_media MEDIA_TYPE_CHANNEL 45)
             (tv_handle true None None)
             (entity DEFAULT_SOURCES "TV" STATE_PLAYING)).2
       = (map (Z.add 1000) (digits 45) ++ [1053])%list
  /\ number_of_keys 0 (map (Z.add 1000) (digits 45)) = Some 45.
Proof.
  assert (Hdev : responsive (tv_handle true None None))
    by (intros ? ?; reflexivity).
  split; [exact Hdev|]. split; [lia|].
  apply (play_media_below_100 (tv_handle true None None)
           (entity DEFAULT_SOURCES "TV" STATE_PLAYING) 45 Hdev). lia.
Defined.

(** ** Power, continued *)

(** Turn-off followed by turn-on always ends in the playing state, from any
    state: a paused or unknown entity is playing after the cycle, and the
    power-on call is the last call made. *)
Theorem power_cycle_ends_playing (dev : Handle) (ent : VestelDevice) :
  responsive dev ->
  exists before,
    run (async_turn_off;; async_turn_on) dev ent =
      (Py.Ok tt, with_state STATE_PLAYING ent,
       (before ++ [Call Device.turn_on; AddJob_update_ha_state])%list)
    /\ (_state ent = STATE_OFF -> before = [])
    /\ (_state ent <> STATE_OFF ->
        before = [Call Device.turn_off; AddJob_update_ha_state]).
Proof.
  intros Hdev. unfold async_turn_off, async_turn_on. unfold_handler. cbn.
  destruct (String.eqb_spec (_state ent) STATE_OFF) as [Hoff|Hon]; cbn.
  - rewrite Hoff. cbn. rewrite Hdev. cbn.
    exists []. repeat split. intros Hne. now destruct Hne.
  - rewrite Hdev. cbn. rewrite Hdev. cbn.
    exists [Call Device.turn_off; AddJob_update_ha_state].
    repeat split. intros Hoff. contradiction.
Qed.

Lemma power_cycle_ends_playing_witness :
  responsive (tv_handle true None None)
  /\ exists before,
       run (async_turn_off;; async_turn_on) (tv_handle true None None)
           (entity DEFAULT_SOURCES "TV" STATE_PAUSED)
         = (Py.Ok tt, entity DEFAULT_SOURCES "TV" STATE_PLAYING,
            (before ++ [Call Device.turn_on; AddJob_update_ha_state])%list).
Proof.
  assert (Hdev : responsive (tv_handle true None None))
    by (intros ? ?; reflexivity).
  split; [exact Hdev|].
  destruct (power_cycle_ends_playing (tv_handle true None None)
              (entity DEFAULT_SOURCES "TV" STATE_PAUSED) Hdev)
    as (before & Hrun & _).
  exists before. exact Hrun.
Defined.

(** ** Supported features, continued *)

(** While the device is undiscovered the turn-on flag is withdrawn from the
    supported features, with or without power support; every flag that
    shares no bit with turn-on is reported as [__init__] set it, and once
    the device is discovered the features are those of [__init__]. *)
Theorem supported_features_turn_on_gated `{Features}
    (support_power discovered : bool) :
  let features := supported_features (init_support support_power) discovered in
  (discovered = false -> Z.land features SUPPORT_TURN_ON = 0)
  /\ (discovered = true -> features = init_support support_power)
  /\ (forall flag, Z.land flag SUPPORT_TURN_ON = 0 ->
      Z.land features flag = Z.land (init_support support_power) flag).
Proof.
  cbv zeta. unfold supported_features. repeat split.
  - intros ->. cbn [negb].
    rewrite <- Z.land_assoc, (Z.land_comm (Z.lnot _)), Z.land_lnot_diag.
    apply Z.land_0_r.
  - intros ->. reflexivity.
  - intros flag Hflag. destruct discovered; cbn [negb]; [reflexivity|].
    apply Z.bits_inj'. intros n Hn.
    assert (Hbit : Z.testbit (Z.land flag SUPPORT_TURN_ON) n = false)
      by (rewrite Hflag; apply Z.bits_0).
    rewrite Z.land_spec in Hbit.
    rewrite !Z.land_spec, Z.lnot_spec by exact Hn.
    destruct (Z.testbit flag n), (Z.testbit SUPPORT_TURN_ON n),
      (Z.testbit (init_support support_power) n); try reflexivity;
      discriminate.
Qed.

Example supported_features_of_host :
  @supported_features ha_features (@init_support ha_features true) false = 24381
  /\ @supported_features ha_features (@init_support ha_features true) true = 24509
  /\ @supported_features ha_features (@init_support ha_features false) false = 24125.
Proof. repeat split. Qed.

(** ** Host updates *)

(** A handler other than stop schedules a host update only as its last
    step, after it has stored off, playing or paused: only turn-off,
    turn-on, play and pause ever do, and then they return normally.  A
    poll, a source selection and the forwarding handlers, set-volume among
    them, never schedule one. *)
Theorem host_update_only_after_state_write
    (dev : Handle) (ent : VestelDevice) (r : request) :
  r <> MediaStop ->
  AddJob_update_ha_state ∈ (run (handler r) dev ent).2 ->
  (run (handler r) dev ent).1.1 = Py.Ok tt
  /\ _state (run (handler r) dev ent).1.2
       ∈ [STATE_OFF; STATE_PLAYING; STATE_PAUSED]
  /\ last (run (handler r) dev ent).2 = Some AddJob_update_ha_state
  /\ r ∈ [TurnOff; TurnOn; MediaPlay; MediaPause].
Proof.
  intros _. destruct r; unfold_handlers; split_run.
  all: cbn; intros Hin.
  all: try (repeat (apply elem_of_cons in Hin as [Hin|Hin]; [discriminate|]);
            now apply elem_of_nil in Hin).
  all: repeat split;
    unfold STATE_OFF, STATE_PLAYING, STATE_PAUSED; set_solver.
Qed.

Lemma host_update_only_after_state_write_witness :
  MediaPause <> MediaStop
  /\ AddJob_update_ha_state
       ∈ (run (handler MediaPause) (tv_handle true None None)
            (entity DEFAULT_SOURCES "TV" STATE_PLAYING)).2
  /\ _state (run (handler MediaPause) (tv_handle true None None)
              (entity DEFAULT_SOURCES "TV" STATE_PLAYING)).1.2
       ∈ [STATE_OFF; STATE_PLAYING; STATE_PAUSED].
Proof.
  assert (Hcmd : MediaPause <> MediaStop) by discriminate.
  assert (Hin : AddJob_update_ha_state
                  ∈ (run (handler MediaPause) (tv_handle true None None)
                       (entity DEFAULT_SOURCES "TV" STATE_PLAYING)).2).
  { cbn. apply list_elem_of_further, list_elem_of_here. }
  split; [exact Hcmd|]. split; [exact Hin|].
  destruct (host_update_only_after_state_write (tv_handle true None None)
              (entity DEFAULT_SOURCES "TV" STATE_PLAYING) MediaPause Hcmd Hin)
    as (_ & Hstate & _).
  exact Hstate.
Defined.
